(** * datacube.index.index: the index facade over its collaborators

    A shallow embedding of [src/datacube/index/index.py].

    The module is a facade: every statement of it either wires collaborator
    objects together or calls one of them ([PostgresDb], the four resource
    classes, [default_metadata_type_docs], the logger).  The collaborators
    live in other modules of the package, so they are taken as parameters:
    a signature of their types and a handler giving the behaviour of every
    call the facade makes.  A method of [Index] becomes a computation that
    threads the state of the backing store, may end in a raised exception,
    and records the calls it made, in order, with what each call answered. *)

From Stdlib Require Import List String Bool Arith Lia.
From ExtLib Require Import Structures.Monad.
Import ListNotations.
Import MonadNotation.
Open Scope string_scope.
Open Scope list_scope.
Open Scope monad_scope.

Set Implicit Arguments.

(** ** Signature of the collaborators *)

(** The types of the objects that cross the boundary of the module.  They
    are opaque to the facade, which only stores them and passes them on. *)
Record Collaborators : Type := {
  Config : Type;               (* the configuration object given to from_config *)
  URL : Type;                  (* what PostgresDb.url answers *)
  Document : Type;             (* one metadata-type document *)
  MetadataType : Type;         (* what MetadataTypeResource.from_doc answers *)
  PostgresDb : Type;
  UserResource : Type;
  MetadataTypeResource : Type;
  ProductResource : Type;
  DatasetResource : Type;
  Exception : Type;            (* the values a raise statement carries *)
  ExcType : Type;              (* type(e) *)
  Traceback : Type;            (* e.__traceback__ *)
  exc_type_of : Exception -> ExcType;
  traceback_of : Exception -> Traceback;
  World : Type                 (* the state of the backing store and its connections *)
}.

(** A Python argument that has a default: left out by the caller, or given. *)
Inductive Arg (A : Type) : Type :=
| Omitted : Arg A
| Given : A -> Arg A.
Arguments Omitted {A}.

Definition arg_or {A : Type} (default : A) (a : Arg A) : A :=
  match a with
  | Omitted => default
  | Given x => x
  end.

(** Python values that the context-manager protocol inspects. *)
Inductive PyValue : Type :=
| PyNone : PyValue
| PyBool : bool -> PyValue.

(** bool(v) *)
Definition truthy (v : PyValue) : bool :=
  match v with
  | PyNone => false
  | PyBool b => b
  end.

Section Facade.

Variable T : Collaborators.

(** How a call ends: with a value, or with an exception. *)
Inductive Outcome (A : Type) : Type :=
| Return : A -> Outcome A
| Raise : Exception T -> Outcome A.
Arguments Raise {A} _.

(** Every call that [index.py] makes on a collaborator. *)
Inductive Call : Type :=
| PostgresDb_from_config
    (config : Config T) (application_name : option string) (validate_connection : bool)
| PostgresDb_init (db : PostgresDb T) (with_permissions : bool)
| PostgresDb_close (db : PostgresDb T)
| PostgresDb_url (db : PostgresDb T)
| UserResource_new (db : PostgresDb T)
| MetadataTypeResource_new (db : PostgresDb T)
| ProductResource_new (db : PostgresDb T) (metadata_type_resource : MetadataTypeResource T)
| DatasetResource_new (db : PostgresDb T) (dataset_type_resource : ProductResource T)
| MetadataTypeResource_from_doc (self : MetadataTypeResource T) (doc : Document T)
| MetadataTypeResource_add
    (self : MetadataTypeResource T) (metadata_type : MetadataType T) (allow_table_lock : bool)
| default_metadata_type_docs.

(** The type of what each call answers. *)
Definition Resp (c : Call) : Type :=
  match c with
  | PostgresDb_from_config _ _ _ => PostgresDb T
  | PostgresDb_init _ _ => bool
  | PostgresDb_close _ => unit
  | PostgresDb_url _ => URL T
  | UserResource_new _ => UserResource T
  | MetadataTypeResource_new _ => MetadataTypeResource T
  | ProductResource_new _ _ => ProductResource T
  | DatasetResource_new _ _ => DatasetResource T
  | MetadataTypeResource_from_doc _ _ => MetadataType T
  | MetadataTypeResource_add _ _ _ => unit
  | default_metadata_type_docs => list (Document T)
  end.

(** One entry of the record of a run. *)
Inductive Event : Type :=
| Called (c : Call) (o : Outcome (Resp c))
| Logged (msg : string).

(** The behaviour of the collaborators: what a call answers in a state of
    the store, and the state it leaves. *)
Definition Handler : Type := forall c : Call, World T -> Outcome (Resp c) * World T.

Variable handler : Handler.

(** ** The monad of the facade's methods *)

Definition M (A : Type) : Type := World T -> Outcome A * World T * list Event.

Definition M_ret {A : Type} (a : A) : M A := fun w => (Return a, w, []).

Definition M_bind {A B : Type} (m : M A) (k : A -> M B) : M B :=
  fun w =>
    match m w with
    | (Return a, w1, t1) =>
        match k a w1 with
        | (o, w2, t2) => (o, w2, t1 ++ t2)
        end
    | (Raise e, w1, t1) => (Raise e, w1, t1)
    end.

#[local] Instance Monad_M : Monad M := {| ret := @M_ret; bind := @M_bind |}.

(** Calling a collaborator: the handler answers, the call is recorded. *)
Definition call (c : Call) : M (Resp c) :=
  fun w =>
    match handler c w with
    | (o, w') => (o, w', [Called c o])
    end.

(** _LOG.info(msg): the record is emitted, the store is not touched. *)
Definition _LOG_info (msg : string) : M unit :=
  fun w => (Return tt, w, [Logged msg]).

(** for x in xs: body(x) *)
Fixpoint for_in {A : Type} (xs : list A) (body : A -> M unit) : M unit :=
  match xs with
  | [] => ret tt
  | x :: rest => body x ;; for_in rest body
  end.

(** ** class Index *)

Record Index : Type := {
  _db : PostgresDb T;
  users : UserResource T;
  metadata_types : MetadataTypeResource T;
  products : ProductResource T;
  datasets : DatasetResource T
}.

(** Index.__init__(self, db); the computation answers the object built. *)
Definition __init__ (db : PostgresDb T) : M Index :=
  let self_db := db in
  self_users <- call (UserResource_new db) ;;
  self_metadata_types <- call (MetadataTypeResource_new db) ;;
  self_products <- call (ProductResource_new db self_metadata_types) ;;
  self_datasets <- call (DatasetResource_new db self_products) ;;
  ret {| _db := self_db;
         users := self_users;
         metadata_types := self_metadata_types;
         products := self_products;
         datasets := self_datasets |}.

(** Index.url (a property) *)
Definition url (self : Index) : M (URL T) :=
  call (PostgresDb_url (_db self)).

(** Index.from_config(cls, config, application_name=None, validate_connection=True) *)
Definition from_config (config : Config T)
    (application_name : Arg (option string)) (validate_connection : Arg bool) : M Index :=
  let application_name := arg_or None application_name in
  let validate_connection := arg_or true validate_connection in
  db <- call (PostgresDb_from_config config application_name validate_connection) ;;
  __init__ db.

(** Index.init_db(self, with_default_types=True, with_permissions=True) *)
Definition init_db (self : Index)
    (with_default_types : Arg bool) (with_permissions : Arg bool) : M bool :=
  let with_default_types := arg_or true with_default_types in
  let with_permissions := arg_or true with_permissions in
  is_new <- call (PostgresDb_init (_db self) with_permissions) ;;
  (if is_new && with_default_types then
     _LOG_info "Adding default metadata types." ;;
     docs <- call default_metadata_type_docs ;;
     for_in docs (fun doc =>
       mt <- call (MetadataTypeResource_from_doc (metadata_types self) doc) ;;
       call (MetadataTypeResource_add (metadata_types self) mt true))
   else ret tt) ;;
  ret is_new.

(** Index.close(self) *)
Definition close (self : Index) : M unit :=
  call (PostgresDb_close (_db self)).

(** Index.__enter__(self) *)
Definition __enter__ (self : Index) : M Index :=
  ret self.

(** Index.__exit__(self, type_, value, traceback): falls off its end, so
    it answers None. *)
Definition __exit__ (self : Index)
    (type_ : option (ExcType T)) (value : option (Exception T))
    (traceback : option (Traceback T)) : M PyValue :=
  close self ;;
  ret PyNone.

(** ** class DefaultIndexDriver *)

(** DefaultIndexDriver.connect_to_index(config, application_name=None,
    validate_connection=True), a static method. *)
Definition connect_to_index (config : Config T)
    (application_name : Arg (option string)) (validate_connection : Arg bool) : M Index :=
  let application_name := arg_or None application_name in
  let validate_connection := arg_or true validate_connection in
  from_config config (Given application_name) (Given validate_connection).

(** ** The with statement *)

(** The context-manager protocol: what [with mgr as v: body] asks of [mgr]. *)
Class ContextManager (C V : Type) : Type := {
  cm_enter : C -> M V;
  cm_exit : C -> option (ExcType T) -> option (Exception T) -> option (Traceback T)
            -> M PyValue
}.

(** [with mgr as v: body(v)].  The value bound by [as] is what __enter__
    answers.  When the body ends normally, __exit__ is called with three
    None; when it raises [e], __exit__ is called with the details of [e],
    and [e] is raised again unless __exit__ answers a true value.  An
    exception raised by __enter__ or by __exit__ itself goes to the caller.
    The block answers [Some a] when the body ended normally with [a], and
    [None] when the exception of the body was swallowed. *)
Definition with_ {C V A : Type} {CM : ContextManager C V}
    (mgr : C) (body : V -> M A) : M (option A) :=
  fun w =>
    match cm_enter mgr w with
    | (Raise e, w1, t1) => (Raise e, w1, t1)
    | (Return v, w1, t1) =>
        match body v w1 with
        | (Return a, w2, t2) =>
            match cm_exit mgr None None None w2 with
            | (Return _, w3, t3) => (Return (Some a), w3, t1 ++ t2 ++ t3)
            | (Raise e', w3, t3) => (Raise e', w3, t1 ++ t2 ++ t3)
            end
        | (Raise e, w2, t2) =>
            match cm_exit mgr (Some (exc_type_of T e)) (Some e)
                          (Some (traceback_of T e)) w2 with
            | (Return r, w3, t3) =>
                if truthy r then (Return None, w3, t1 ++ t2 ++ t3)
                else (Raise e, w3, t1 ++ t2 ++ t3)
            | (Raise e', w3, t3) => (Raise e', w3, t1 ++ t2 ++ t3)
            end
        end
    end.

(** Index is a context manager through its __enter__ and __exit__. *)
#[local] Instance Index_ContextManager : ContextManager Index Index :=
  {| cm_enter := __enter__; cm_exit := __exit__ |}.

(** ** Reading the record of a run *)

(** The calls of a record, in order. *)
Definition call_of (ev : Event) : list Call :=
  match ev with
  | Called c _ => [c]
  | Logged _ => []
  end.

Definition calls (t : list Event) : list Call := flat_map call_of t.

(** An entry whose call did not raise. *)
Definition returned (ev : Event) : Prop :=
  match ev with
  | Called _ (Return _) => True
  | Called _ (Raise _) => False
  | Logged _ => True
  end.

(** The state of the store after the given calls, made one after the other. *)
Fixpoint replay (cs : list Call) (w : World T) : World T :=
  match cs with
  | [] => w
  | c :: rest => replay rest (snd (handler c w))
  end.

(** The calls that belong to the seeding of the default metadata types. *)
Definition is_seeding_call (c : Call) : bool :=
  match c with
  | default_metadata_type_docs => true
  | MetadataTypeResource_from_doc _ _ => true
  | MetadataTypeResource_add _ _ _ => true
  | _ => false
  end.

Definition is_from_config_call (c : Call) : bool :=
  match c with
  | PostgresDb_from_config _ _ _ => true
  | _ => false
  end.

(** The documents that from_doc turned into a record, with the record. *)
Definition parsed_of (ev : Event) : list (Document T * MetadataType T) :=
  match ev with
  | Called c o =>
      match c as c0 return Outcome (Resp c0) -> list (Document T * MetadataType T) with
      | MetadataTypeResource_from_doc _ doc =>
          fun o0 => match o0 with
                    | Return mt => [(doc, mt)]
                    | Raise _ => []
                    end
      | _ => fun _ => []
      end o
  | Logged _ => []
  end.

Definition parsed (t : list Event) : list (Document T * MetadataType T) :=
  flat_map parsed_of t.

(** The add calls: on which registry, of which record, with which value of
    allow_table_lock. *)
Definition add_of (c : Call) : list (MetadataTypeResource T * MetadataType T * bool) :=
  match c with
  | MetadataTypeResource_add r mt lock => [(r, mt, lock)]
  | _ => []
  end.

Definition adds (t : list Event) : list (MetadataTypeResource T * MetadataType T * bool) :=
  flat_map add_of (calls t).

(** The four resource managers, and which one a constructor call builds on
    which connection. *)
Inductive Manager : Type := Users | MetadataTypes | Products | Datasets.

Definition constructed (c : Call) : option (Manager * PostgresDb T) :=
  match c with
  | UserResource_new db => Some (Users, db)
  | MetadataTypeResource_new db => Some (MetadataTypes, db)
  | ProductResource_new db _ => Some (Products, db)
  | DatasetResource_new db _ => Some (Datasets, db)
  | _ => None
  end.

(** A record in which no call but possibly the last one raised, and whose
    last call raised exactly when the run did, with the same exception. *)
Definition ended {A : Type} (o : Outcome A) (t : list Event) : Prop :=
  match o with
  | Return _ => Forall returned t
  | Raise e => exists t1 c, t = t1 ++ [Called c (Raise e)] /\ Forall returned t1
  end.

(** A run that did nothing to the store but make the calls of its record. *)
Definition faithful {A : Type} (w : World T) (r : Outcome A * World T * list Event) : Prop :=
  match r with
  | (o, w', t) => ended o t /\ w' = replay (calls t) w
  end.

End Facade.

Arguments Return {T A} _.
Arguments Raise {T A} _.
Arguments PostgresDb_from_config {T} _ _ _.
Arguments PostgresDb_init {T} _ _.
Arguments PostgresDb_close {T} _.
Arguments PostgresDb_url {T} _.
Arguments UserResource_new {T} _.
Arguments MetadataTypeResource_new {T} _.
Arguments ProductResource_new {T} _ _.
Arguments DatasetResource_new {T} _ _.
Arguments MetadataTypeResource_from_doc {T} _ _.
Arguments MetadataTypeResource_add {T} _ _ _.
Arguments default_metadata_type_docs {T}.
Arguments Called {T} _ _.
Arguments Logged {T} _.
Arguments is_seeding_call {T} _.
Arguments is_from_config_call {T} _.
Arguments constructed {T} _.
Arguments returned {T} _.

(** ** A reference backing store *)

Module Store.

(** Modelled from the spec: the configuration object, of which section 6 of
    the specification only says that it holds the connection parameters.
    [cfg_reachable] stands for whether the store answers at that address. *)
Record config : Type := {
  cfg_url : string;
  cfg_reachable : bool
}.

(** Modelled from the spec: the connection handle ([PostgresDb] is imported
    from datacube.drivers.postgres): its address, the label it was opened
    with and whether its connectivity was confirmed when it was built. *)
Record postgres_db : Type := {
  db_url : string;
  db_application_name : option string;
  db_validated : bool
}.

(** Modelled from the spec: the error kinds of section 7. *)
Inductive exception : Type :=
| ConnectivityError
| SchemaInitializationError
| DefaultSeedingError (doc : string)
| InvalidDocument.

(** Modelled from the spec: the state of the backing store.  [faulty] lists
    the records whose addition fails, for fault injection; [broken_schema]
    makes schema creation fail. *)
Record world : Type := {
  schema_exists : bool;
  registry : list string;
  idle_connections : nat;
  faulty : list string;
  broken_schema : bool
}.

Definition exc_name (e : exception) : string :=
  match e with
  | ConnectivityError => "ConnectivityError"
  | SchemaInitializationError => "SchemaInitializationError"
  | DefaultSeedingError _ => "DefaultSeedingError"
  | InvalidDocument => "InvalidDocument"
  end.

(** Modelled from the spec: the resource managers (datacube.index._datasets,
    .metadata_types, .products and .users) keep what they are constructed
    with: the connection handle, and the manager they depend on. *)
Definition types : Collaborators := {|
  Config := config;
  URL := string;
  Document := string;
  MetadataType := string;
  PostgresDb := postgres_db;
  UserResource := postgres_db;
  MetadataTypeResource := postgres_db;
  ProductResource := postgres_db * postgres_db;
  DatasetResource := postgres_db * (postgres_db * postgres_db);
  Exception := exception;
  ExcType := string;
  Traceback := unit;
  exc_type_of := exc_name;
  traceback_of := fun _ => tt;
  World := world
|}.

Definition mem (x : string) (l : list string) : bool :=
  existsb (String.eqb x) l.

(** Modelled from the spec: the fixed ordered set of built-in documents that
    datacube.index.metadata_types.default_metadata_type_docs supplies. *)
Definition default_docs : list string := ["eo"; "telemetry"].

(** Modelled from the spec: the collaborator contracts of section 6.
    [PostgresDb.from_config] confirms connectivity when asked to and raises
    when it cannot; [init] creates the schema once and reports whether it
    did; [close] releases the idle connections and nothing else; [url] is
    the address of the handle; [add] of a record that is present is not a
    duplicate. *)
Definition backend : Handler types :=
  fun c =>
    match c as c0 return world -> Outcome types (Resp c0) * world with
    | PostgresDb_from_config cfg application_name validate_connection => fun w =>
        if validate_connection && negb (cfg_reachable cfg)
        then (@Raise types _ ConnectivityError, w)
        else (@Return types _
                {| db_url := cfg_url cfg;
                   db_application_name := application_name;
                   db_validated := validate_connection |},
              if validate_connection
              then {| schema_exists := schema_exists w;
                      registry := registry w;
                      idle_connections := S (idle_connections w);
                      faulty := faulty w;
                      broken_schema := broken_schema w |}
              else w)
    | PostgresDb_init db with_permissions => fun w =>
        if schema_exists w then (@Return types _ false, w)
        else if broken_schema w then (@Raise types _ SchemaInitializationError, w)
        else (@Return types _ true,
              {| schema_exists := true;
                 registry := registry w;
                 idle_connections := S (idle_connections w);
                 faulty := faulty w;
                 broken_schema := broken_schema w |})
    | PostgresDb_close db => fun w =>
        (@Return types _ tt,
         {| schema_exists := schema_exists w;
            registry := registry w;
            idle_connections := 0;
            faulty := faulty w;
            broken_schema := broken_schema w |})
    | PostgresDb_url db => fun w => (@Return types _ (db_url db), w)
    | UserResource_new db => fun w => (@Return types _ db, w)
    | MetadataTypeResource_new db => fun w => (@Return types _ db, w)
    | ProductResource_new db metadata_type_resource => fun w =>
        (@Return types _ (db, metadata_type_resource), w)
    | DatasetResource_new db dataset_type_resource => fun w =>
        (@Return types _ (db, dataset_type_resource), w)
    | MetadataTypeResource_from_doc self doc => fun w =>
        if String.eqb doc EmptyString then (@Raise types _ InvalidDocument, w)
        else (@Return types _ doc, w)
    | MetadataTypeResource_add self metadata_type allow_table_lock => fun w =>
        if mem metadata_type (faulty w)
        then (@Raise types _ (DefaultSeedingError metadata_type), w)
        else if mem metadata_type (registry w) then (@Return types _ tt, w)
        else (@Return types _ tt,
              {| schema_exists := schema_exists w;
                 registry := registry w ++ [metadata_type];
                 idle_connections := idle_connections w;
                 faulty := faulty w;
                 broken_schema := broken_schema w |})
    | default_metadata_type_docs => fun w => (@Return types _ default_docs, w)
    end.

(** A store on which nothing was created yet. *)
Definition fresh : world := {|
  schema_exists := false;
  registry := [];
  idle_connections := 0;
  faulty := [];
  broken_schema := false
|}.

(** A fresh store on which the addition of the given records fails. *)
Definition fresh_failing (bad : list string) : world := {|
  schema_exists := false;
  registry := [];
  idle_connections := 0;
  faulty := bad;
  broken_schema := false
|}.

(** A store whose schema exists. *)
Definition initialised : world := {|
  schema_exists := true;
  registry := default_docs;
  idle_connections := 2;
  faulty := [];
  broken_schema := false
|}.

Definition good_config : config := {| cfg_url := "postgresql://localhost/datacube"; cfg_reachable := true |}.
Definition bad_config : config := {| cfg_url := "postgresql://nowhere/datacube"; cfg_reachable := false |}.

Definition a_db : postgres_db := {|
  db_url := "postgresql://localhost/datacube";
  db_application_name := Some "app";
  db_validated := true
|}.

(** The Index that Index(a_db) builds on this backend. *)
Definition an_index : Index types :=
  Build_Index types a_db a_db a_db (a_db, a_db) (a_db, (a_db, a_db)).

(** The store after a first init on [fresh]. *)
Definition created : world := {|
  schema_exists := true;
  registry := [];
  idle_connections := 1;
  faulty := [];
  broken_schema := false
|}.

(** Entries of the records of runs on this store. *)
Definition init_ev (is_new : bool) : Event types :=
  Called (@PostgresDb_init types a_db true) (Return is_new).

Definition docs_ev : Event types :=
  Called (@default_metadata_type_docs types) (@Return types (list string) default_docs).

Definition from_doc_ev (doc : string) : Event types :=
  Called (@MetadataTypeResource_from_doc types a_db doc) (@Return types string doc).

Definition add_ev (doc : string) (o : Outcome types unit) : Event types :=
  Called (@MetadataTypeResource_add types a_db doc true) o.

Definition close_ev : Event types :=
  Called (@PostgresDb_close types a_db) (@Return types unit tt).

Definition wiring : list (Event types) :=
  [Called (@UserResource_new types a_db) (@Return types postgres_db a_db);
   Called (@MetadataTypeResource_new types a_db) (@Return types postgres_db a_db);
   Called (@ProductResource_new types a_db a_db)
          (@Return types (postgres_db * postgres_db) (a_db, a_db));
   Called (@DatasetResource_new types a_db (a_db, a_db))
          (@Return types (postgres_db * (postgres_db * postgres_db))
                   (a_db, (a_db, a_db)))].

(** Two states of the store that differ at most in the number of idle
    connections. *)
Definition same_but_idle (w1 w2 : World types) : Prop :=
  schema_exists w1 = schema_exists w2 /\ registry w1 = registry w2 /\
  faulty w1 = faulty w2 /\ broken_schema w1 = broken_schema w2.

(** index.init_db(), as the body of a with statement. *)
Definition seed (index : Index types) : M types bool :=
  init_db backend index Omitted Omitted.

End Store.

(** The exception an entry of a record ended with, if it did. *)
Definition raised {T : Collaborators} (ev : Event T) : option (Exception T) :=
  match ev with
  | Called _ (Raise e) => Some e
  | _ => None
  end.

(** Index.__repr__(self): "Index<db={!r}>".format(self._db).  The repr of
    the connection handle is the handle's own; it is taken as a parameter. *)
Definition __repr__ {T : Collaborators} (repr : PostgresDb T -> string)
    (self : Index T) : string :=
  ("Index<db=" ++ repr (_db self) ++ ">")%string.

(** ** Further readings of a record *)

Definition is_init_call {T : Collaborators} (c : Call T) : bool :=
  match c with
  | PostgresDb_init _ _ => true
  | _ => false
  end.

Definition is_close_call {T : Collaborators} (c : Call T) : bool :=
  match c with
  | PostgresDb_close _ => true
  | _ => false
  end.

Definition is_default_docs_call {T : Collaborators} (c : Call T) : bool :=
  match c with
  | default_metadata_type_docs => true
  | _ => false
  end.

(** The registry on which a from_doc or an add is called. *)
Definition registry_of {T : Collaborators} (c : Call T)
    : option (MetadataTypeResource T) :=
  match c with
  | MetadataTypeResource_from_doc r _ => Some r
  | MetadataTypeResource_add r _ _ => Some r
  | _ => None
  end.

(** ** The reference store with a fault injected *)

Module Faulty.

Import Store.

(** Modelled from the spec: the reference backend, on which the calls that
    [fails] selects raise the exception it gives and leave the store as it
    is; every other call is answered as by [Store.backend]. *)
Definition failing (fails : Call types -> option exception) : Handler types :=
  fun c w =>
    match fails c with
    | Some e => (@Raise types (Resp c) e, w)
    | None => backend c w
    end.

(** Releasing the connections fails. *)
Definition close_fails (c : Call types) : option exception :=
  match c with
  | PostgresDb_close _ => Some ConnectivityError
  | _ => None
  end.

(** Constructing the products manager fails. *)
Definition products_fail (c : Call types) : option exception :=
  match c with
  | ProductResource_new _ _ => Some ConnectivityError
  | _ => None
  end.

(** index.init_db() on the backend whose close fails. *)
Definition seed_unreleased (index : Index types) : M types bool :=
  init_db (failing close_fails) index Omitted Omitted.

End Faulty.

(** ** Runs that end alike *)

(** Two runs that end alike: the same outcome, the same record (the same
    calls with the same answers), and final states of the store that [R]
    relates. *)
Definition alike {T : Collaborators} {A : Type} (R : World T -> World T -> Prop)
    (r1 r2 : Outcome T A * World T * list (Event T)) : Prop :=
  fst (fst r1) = fst (fst r2) /\ snd r1 = snd r2 /\ R (snd (fst r1)) (snd (fst r2)).

(** A handler that does not tell apart two states of the store that [R]
    relates: it answers every call alike in both and leaves related states. *)
Definition blind_to {T : Collaborators} (h : Handler T)
    (R : World T -> World T -> Prop) : Prop :=
  forall c w1 w2, R w1 w2 ->
    fst (h c w1) = fst (h c w2) /\ R (snd (h c w1)) (snd (h c w2)).

(** * Properties of the facade *)

Section FacadeProperties.

Variable T : Collaborators.
Variable h : Handler T.

#[local] Existing Instance Monad_M.

(** ** Runs of the monad *)

Lemma calls_app (t1 t2 : list (Event T)) : calls (t1 ++ t2) = calls t1 ++ calls t2.
Proof. unfold calls. apply flat_map_app. Qed.

Lemma parsed_app (t1 t2 : list (Event T)) : parsed (t1 ++ t2) = parsed t1 ++ parsed t2.
Proof. unfold parsed. apply flat_map_app. Qed.

Lemma adds_app (t1 t2 : list (Event T)) : adds (t1 ++ t2) = adds t1 ++ adds t2.
Proof. unfold adds. rewrite calls_app. apply flat_map_app. Qed.

Lemma replay_app (cs1 cs2 : list (Call T)) (w : World T) :
  replay h (cs1 ++ cs2) w = replay h cs2 (replay h cs1 w).
Proof.
  revert w. induction cs1 as [|c cs1 IH]; intros w; simpl.
  - reflexivity.
  - apply IH.
Qed.

Lemma returned_not_raised (ev : Event T) (e : Exception T) :
  returned ev -> raised ev = Some e -> False.
Proof.
  destruct ev as [c o|msg]; simpl.
  - destruct o; [discriminate | contradiction].
  - discriminate.
Qed.

Lemma ended_app {A B : Type} (a : A) (o : Outcome T B) (t1 t2 : list (Event T)) :
  ended (Return a) t1 -> ended o t2 -> ended o (t1 ++ t2).
Proof.
  intros H1 H2. destruct o as [b|e]; simpl in *.
  - apply Forall_app. split; assumption.
  - destruct H2 as (t2' & c & -> & Hret).
    exists (t1 ++ t2'), c. split.
    + apply app_assoc.
    + apply Forall_app. split; assumption.
Qed.

(** A raised exception in a record that [ended]: it is the one of the run. *)
Lemma ended_raised {A : Type} (o : Outcome T A) (t : list (Event T))
      (ev : Event T) (e : Exception T) :
  ended o t -> In ev t -> raised ev = Some e -> o = Raise e.
Proof.
  intros Hend Hin Hr. destruct o as [a|e']; simpl in Hend.
  - exfalso. rewrite Forall_forall in Hend.
    exact (returned_not_raised ev (Hend ev Hin) Hr).
  - destruct Hend as (t1 & c & -> & Hret).
    apply in_app_or in Hin. destruct Hin as [Hin|Hin].
    + exfalso. rewrite Forall_forall in Hret.
      exact (returned_not_raised ev (Hret ev Hin) Hr).
    + destruct Hin as [<-|[]]. simpl in Hr. congruence.
Qed.

Lemma faithful_ret {A : Type} (a : A) (w : World T) :
  faithful h w (ret (m := M T) a w).
Proof. simpl. split; [constructor | reflexivity]. Qed.

Lemma faithful_call (c : Call T) (w : World T) :
  faithful h w (call h c w).
Proof.
  unfold call. destruct (h c w) as [o w1] eqn:E. simpl. split.
  - destruct o as [a|e]; simpl.
    + repeat constructor.
    + exists [], c. split; [reflexivity | constructor].
  - rewrite E. reflexivity.
Qed.

Lemma faithful_log (msg : string) (w : World T) :
  faithful h w (_LOG_info T msg w).
Proof. simpl. split; [repeat constructor | reflexivity]. Qed.

Lemma faithful_bind {A B : Type} (m : M T A) (k : A -> M T B) (w : World T) :
  faithful h w (m w) ->
  (forall a w1, faithful h w1 (k a w1)) ->
  faithful h w (bind m k w).
Proof.
  intros Hm Hk. simpl. unfold M_bind.
  destruct (m w) as [[o w1] t1]. destruct o as [a|e].
  - specialize (Hk a w1). destruct (k a w1) as [[o2 w2] t2].
    destruct Hm as [Hm1 Hm2]. destruct Hk as [Hk1 Hk2]. split.
    + eapply ended_app; eassumption.
    + rewrite calls_app, replay_app, <- Hm2. exact Hk2.
  - exact Hm.
Qed.

Lemma faithful_for_in {A : Type} (xs : list A) (body : A -> M T unit) :
  (forall x w, faithful h w (body x w)) ->
  forall w, faithful h w (for_in xs body w).
Proof.
  intros Hbody. induction xs as [|x xs IH]; intros w.
  - apply faithful_ret.
  - cbn [for_in]. apply faithful_bind.
    + apply Hbody.
    + intros _ w1. apply IH.
Qed.

Lemma init_db_faithful (self : Index T) (a b : Arg bool) (w : World T) :
  faithful h w (init_db h self a b w).
Proof.
  unfold init_db. apply faithful_bind; [apply faithful_call|].
  intros is_new w1. apply faithful_bind; [|intros; apply faithful_ret].
  destruct (is_new && arg_or true a); [|apply faithful_ret].
  apply faithful_bind; [apply faithful_log|]. intros _ w2.
  apply faithful_bind; [apply faithful_call|]. intros docs w3.
  apply faithful_for_in. intros doc w4.
  apply faithful_bind; [apply faithful_call|]. intros mt w5.
  exact (faithful_call (MetadataTypeResource_add (metadata_types self) mt true) w5).
Qed.

(** ** First-use initialisation *)

(** What init_db does after the schema step, as one computation. *)
Lemma init_db_run (self : Index T) (a b : Arg bool) (w : World T) :
  init_db h self a b w =
  match h (PostgresDb_init (_db self) (arg_or true b)) w with
  | (Raise e, w1) =>
      (Raise e, w1, [Called (PostgresDb_init (_db self) (arg_or true b)) (Raise e)])
  | (Return is_new, w1) =>
      if is_new && arg_or true a then
        match h default_metadata_type_docs w1 with
        | (Raise e, w2) =>
            (Raise e, w2,
             [Called (PostgresDb_init (_db self) (arg_or true b)) (Return is_new);
              Logged "Adding default metadata types.";
              Called default_metadata_type_docs (Raise e)])
        | (Return docs, w2) =>
            match for_in docs (fun doc =>
                    mt <- call h (MetadataTypeResource_from_doc (metadata_types self) doc) ;;
                    call h (MetadataTypeResource_add (metadata_types self) mt true)) w2 with
            | (Return _, w3, t3) =>
                (Return is_new, w3,
                 Called (PostgresDb_init (_db self) (arg_or true b)) (Return is_new)
                 :: Logged "Adding default metadata types."
                 :: Called default_metadata_type_docs (Return docs) :: t3)
            | (Raise e, w3, t3) =>
                (Raise e, w3,
                 Called (PostgresDb_init (_db self) (arg_or true b)) (Return is_new)
                 :: Logged "Adding default metadata types."
                 :: Called default_metadata_type_docs (Return docs) :: t3)
            end
        end
      else
        (Return is_new, w1,
         [Called (PostgresDb_init (_db self) (arg_or true b)) (Return is_new)])
  end.
Proof.
  unfold init_db. cbn [bind ret Monad_M]. unfold M_bind, M_ret, call, _LOG_info.
  destruct (h (PostgresDb_init (_db self) (arg_or true b)) w) as [[is_new|e] w1];
    [|reflexivity].
  destruct (is_new && arg_or true a); [|reflexivity].
  destruct (h default_metadata_type_docs w1) as [[docs|e] w2]; [|reflexivity].
  match goal with
  | |- context [for_in docs ?body w2] => destruct (for_in docs body w2) as [[[u|e] w3] t3]
  end; rewrite ?app_nil_r; reflexivity.
Qed.

(** How init_db ends, read against what the init operation reported. *)
Lemma init_db_is_new_record (self : Index T) (a b : Arg bool) (w : World T)
    (o : Outcome T bool) (w' : World T) (t : list (Event T)) :
  init_db h self a b w = (o, w', t) ->
  let init := PostgresDb_init (_db self) (arg_or true b) in
  let reported := fst (h init w) in
  hd_error t = Some (Called init reported) /\
  (forall is_new, o = Return is_new -> reported = Return is_new) /\
  (existsb is_seeding_call (calls t) = true <->
     reported = Return true /\ arg_or true a = true) /\
  (existsb is_seeding_call (calls t) = false ->
     o = reported /\ w' = snd (h init w) /\ t = [Called init reported]) /\
  (Forall returned t -> o = reported).
Proof.
  intros Hrun init reported. subst init reported.
  pose proof (init_db_faithful self a b w) as Hf. rewrite Hrun in Hf.
  destruct Hf as [Hend _].
  rewrite init_db_run in Hrun.
  destruct (h (PostgresDb_init (_db self) (arg_or true b)) w) as [[is_new|e] w1];
    cbn [fst snd].
  - destruct (is_new && arg_or true a) eqn:Hseed.
    + apply andb_true_iff in Hseed. destruct Hseed as [-> Ha].
      assert (Hs : existsb is_seeding_call (calls t) = true
                   /\ hd_error t = Some (Called (PostgresDb_init (_db self) (arg_or true b))
                                                (Return true))
                   /\ (forall is_new, o = Return is_new -> is_new = true)).
      { destruct (h default_metadata_type_docs w1) as [[docs|e] w2].
        - match type of Hrun with
          | context [for_in docs ?body w2] =>
              destruct (for_in docs body w2) as [[[u|e] w3] t3]
          end; inversion Hrun; subst; repeat split; try reflexivity;
            intros is_new Hn; congruence.
        - inversion Hrun; subst. repeat split; try reflexivity.
          intros is_new Hn; discriminate. }
      destruct Hs as (Hs1 & Hs2 & Hs3).
      split; [exact Hs2|]. split; [|split; [|split]].
      * intros is_new Hn. rewrite (Hs3 is_new Hn). reflexivity.
      * split; [intros _; split; [reflexivity | exact Ha] | intros _; exact Hs1].
      * intros Hn. congruence.
      * intros Hret. destruct o as [is_new|e].
        -- rewrite (Hs3 is_new eq_refl). reflexivity.
        -- exfalso. simpl in Hend. destruct Hend as (t1 & c & -> & _).
           apply Forall_app in Hret. destruct Hret as [_ Hret].
           inversion Hret as [|? ? Hc _]. exact Hc.
    + inversion Hrun; subst. cbn.
      split; [reflexivity|]. split; [|split; [|split]].
      * intros is_new0 Hn. exact Hn.
      * split; [discriminate|].
        intros [Hn Ha]. inversion Hn; subst. rewrite Ha in Hseed. discriminate.
      * intros _. repeat split.
      * intros _. reflexivity.
  - inversion Hrun; subst. cbn.
    split; [reflexivity|]. split; [|split; [|split]].
    + intros is_new Hn. exact Hn.
    + split; [discriminate|]. intros [Hn _]. discriminate.
    + intros _. repeat split.
    + intros _. reflexivity.
Qed.

(** The loop of init_db: every add is made on the registry of the index and
    asks for the table lock; the documents are parsed in the order of the
    list, each at most once; what is added is what was parsed, in that
    order; and when the loop completes, every document was parsed and added
    exactly once. *)
Lemma seeding_loop (r : MetadataTypeResource T) (docs : list (Document T)) :
  forall (w : World T) (o : Outcome T unit) (w' : World T) (t : list (Event T)),
  for_in docs (fun doc =>
      mt <- call h (MetadataTypeResource_from_doc r doc) ;;
      call h (MetadataTypeResource_add r mt true)) w = (o, w', t) ->
  Forall (fun x => x = (r, snd (fst x), true)) (adds t) /\
  (exists n, map fst (parsed t) = firstn n docs) /\
  (exists n, map (fun x => snd (fst x)) (adds t) = firstn n (map snd (parsed t))) /\
  (forall u, o = Return u ->
     map fst (parsed t) = docs /\
     adds t = map (fun p => (r, snd p, true)) (parsed t)).
Proof.
  induction docs as [|doc docs IH]; intros w o w' t Hrun.
  - inversion Hrun; subst. cbn.
    split; [constructor|]. split; [exists 0; reflexivity|].
    split; [exists 0; reflexivity|]. intros _ _. split; reflexivity.
  - cbn [for_in bind ret Monad_M] in Hrun. unfold M_bind, call in Hrun.
    destruct (h (MetadataTypeResource_from_doc r doc) w) as [[mt|e] w1].
    + destruct (h (MetadataTypeResource_add r mt true) w1) as [[u|e] w2].
      * match type of Hrun with
        | context [for_in docs ?body w2] =>
            destruct (for_in docs body w2) as [[o3 w3] t3] eqn:Hrest
        end.
        apply IH in Hrest. destruct Hrest as (H1 & [n H2] & [m H3] & H4).
        inversion Hrun; subst. cbn.
        split; [constructor; [reflexivity | exact H1]|].
        split; [exists (S n); cbn; f_equal; exact H2|].
        split; [exists (S m); cbn; f_equal; exact H3|].
        intros u0 Hu. destruct (H4 u0 Hu) as [H5 H6].
        split; f_equal; assumption.
      * inversion Hrun; subst. cbn.
        split; [repeat constructor|]. split; [exists 1; reflexivity|].
        split; [exists 1; reflexivity|]. discriminate.
    + inversion Hrun; subst. cbn.
      split; [constructor|]. split; [exists 0; reflexivity|].
      split; [exists 0; reflexivity|]. discriminate.
Qed.

(** C1.  init_db first calls the init operation of the connection handle,
    with the permissions flag as given.  When init_db returns, it returns
    the boolean that this operation reported.  The default metadata types
    are seeded if and only if the operation reported true and
    with_default_types is true.  When they are not, nothing is fetched,
    parsed or added, init_db ends exactly as the init operation did and the
    store is left as that operation left it.  When they are, the default
    documents that were supplied are parsed in their order and the records
    parsed are added in that order to the registry of the index, and when
    init_db returns every one of these documents was parsed and its record
    added. *)
Theorem init_db_returns_is_new (self : Index T) (a b : Arg bool) (w : World T)
    (o : Outcome T bool) (w' : World T) (t : list (Event T)) :
  init_db h self a b w = (o, w', t) ->
  let init := PostgresDb_init (_db self) (arg_or true b) in
  let reported := fst (h init w) in
  hd_error t = Some (Called init reported) /\
  (forall is_new, o = Return is_new -> reported = Return is_new) /\
  (existsb is_seeding_call (calls t) = true <->
     reported = Return true /\ arg_or true a = true) /\
  (existsb is_seeding_call (calls t) = false ->
     o = reported /\ w' = snd (h init w) /\ t = [Called init reported]) /\
  (Forall returned t -> o = reported) /\
  (reported <> Return true \/ arg_or true a = false ->
     adds t = [] /\ parsed t = [] /\ o = reported /\ w' = snd (h init w)) /\
  (forall docs w2,
     reported = Return true -> arg_or true a = true ->
     h default_metadata_type_docs (snd (h init w)) = (Return docs, w2) ->
     Forall (fun x => x = (metadata_types self, snd (fst x), true)) (adds t) /\
     (exists n, map fst (parsed t) = firstn n docs) /\
     (exists n, map (fun x => snd (fst x)) (adds t) = firstn n (map snd (parsed t))) /\
     (forall is_new, o = Return is_new ->
        map fst (parsed t) = docs /\
        adds t = map (fun p => (metadata_types self, snd p, true)) (parsed t))).
Proof.
  intros Hrun init reported.
  destruct (init_db_is_new_record self a b w Hrun) as (C1 & C2 & C3 & C4 & C5).
  fold init in C1, C2, C3, C4, C5. fold reported in C1, C2, C3, C4, C5.
  split; [exact C1|]. split; [exact C2|]. split; [exact C3|].
  split; [exact C4|]. split; [exact C5|]. split.
  - intros Hnot.
    destruct (existsb is_seeding_call (calls t)) eqn:Hs.
    + exfalso. destruct (proj1 C3 eq_refl) as [Hr Ha].
      destruct Hnot as [Hnot|Hnot]; [exact (Hnot Hr) | congruence].
    + destruct (C4 eq_refl) as (Ho & Hw & Ht).
      rewrite Ht. repeat split; assumption.
  - intros docs w2 Hr Ha Hdocs. subst init reported.
    rewrite init_db_run in Hrun.
    destruct (h (PostgresDb_init (_db self) (arg_or true b)) w) as [o0 w1].
    cbn [fst snd] in Hr, Hdocs. subst o0.
    rewrite Ha in Hrun. cbn [andb] in Hrun. rewrite Hdocs in Hrun.
    match type of Hrun with
    | context [for_in docs ?body w2] =>
        destruct (for_in docs body w2) as [[o3 w3] t3] eqn:Hloop
    end.
    apply seeding_loop in Hloop. destruct Hloop as (H1 & H2 & H3 & H4).
    assert (Ht : adds t = adds t3 /\ parsed t = parsed t3).
    { destruct o3; inversion Hrun; subst; split; reflexivity. }
    destruct Ht as [-> ->].
    split; [exact H1|]. split; [exact H2|]. split; [exact H3|].
    intros is_new Ho. destruct o3 as [u|e].
    + exact (H4 u eq_refl).
    + inversion Hrun; subst. discriminate.
Qed.

(** C5.  When init_db seeds (the init operation reported true and
    with_default_types is true), it goes through the documents that
    default_metadata_type_docs supplied, in their order: the documents
    parsed are an initial part of that list, the records added are an
    initial part of the records parsed, every add is made on the metadata
    type registry of the index with allow_table_lock=True, and when init_db
    returns, every document of the list was parsed and its record added
    exactly once, in the order of the list. *)
Theorem init_db_seeds_defaults_in_order (self : Index T) (a b : Arg bool)
    (w w1 w2 : World T) (docs : list (Document T))
    (o : Outcome T bool) (w' : World T) (t : list (Event T)) :
  arg_or true a = true ->
  h (PostgresDb_init (_db self) (arg_or true b)) w = (Return true, w1) ->
  h default_metadata_type_docs w1 = (Return docs, w2) ->
  init_db h self a b w = (o, w', t) ->
  Forall (fun x => x = (metadata_types self, snd (fst x), true)) (adds t) /\
  (exists n, map fst (parsed t) = firstn n docs) /\
  (exists n, map (fun x => snd (fst x)) (adds t) = firstn n (map snd (parsed t))) /\
  (forall is_new, o = Return is_new ->
     map fst (parsed t) = docs /\
     adds t = map (fun p => (metadata_types self, snd p, true)) (parsed t)).
Proof.
  intros Ha Hinit Hdocs Hrun.
  rewrite init_db_run, Hinit, Ha in Hrun. cbn [andb] in Hrun. rewrite Hdocs in Hrun.
  match type of Hrun with
  | context [for_in docs ?body w2] =>
      destruct (for_in docs body w2) as [[o3 w3] t3] eqn:Hloop
  end.
  apply seeding_loop in Hloop. destruct Hloop as (H1 & H2 & H3 & H4).
  assert (Ht : adds t = adds t3 /\ parsed t = parsed t3).
  { destruct o3; inversion Hrun; subst; split; reflexivity. }
  destruct Ht as [-> ->].
  split; [exact H1|]. split; [exact H2|]. split; [exact H3|].
  intros is_new Ho. destruct o3 as [u|e].
  - exact (H4 u eq_refl).
  - inversion Hrun; subst. discriminate.
Qed.

(** C6.  An exception raised by any call that init_db makes (the schema
    step, fetching or parsing a default document, adding its record) is the
    exception that init_db raises; the raising call is the last thing
    init_db does (nothing is retried, nothing is undone) and every call
    before it had returned; and the store is left as the calls made, in
    their order, left it, so the records added before a failing add stay
    added. *)
Theorem init_db_errors_propagate (self : Index T) (a b : Arg bool) (w : World T)
    (o : Outcome T bool) (w' : World T) (t : list (Event T)) :
  init_db h self a b w = (o, w', t) ->
  (forall ev e, In ev t -> raised ev = Some e -> o = Raise e) /\
  (forall e, o = Raise e ->
     exists t1 c, t = t1 ++ [Called c (Raise e)] /\ Forall returned t1) /\
  w' = replay h (calls t) w.
Proof.
  intros Hrun. pose proof (init_db_faithful self a b w) as Hf.
  rewrite Hrun in Hf. destruct Hf as [Hend Hw].
  split; [|split].
  - intros ev e Hin Hr. eapply ended_raised; eassumption.
  - intros e ->. exact Hend.
  - exact Hw.
Qed.

(** ** Construction *)

(** What Index(db) does, call by call. *)
Lemma Index_init_run (db : PostgresDb T) (w : World T) :
  __init__ h db w =
  match h (UserResource_new db) w with
  | (Raise e, w1) => (Raise e, w1, [Called (UserResource_new db) (Raise e)])
  | (Return u, w1) =>
    match h (MetadataTypeResource_new db) w1 with
    | (Raise e, w2) =>
        (Raise e, w2, [Called (UserResource_new db) (Return u);
                       Called (MetadataTypeResource_new db) (Raise e)])
    | (Return mt, w2) =>
      match h (ProductResource_new db mt) w2 with
      | (Raise e, w3) =>
          (Raise e, w3, [Called (UserResource_new db) (Return u);
                         Called (MetadataTypeResource_new db) (Return mt);
                         Called (ProductResource_new db mt) (Raise e)])
      | (Return p, w3) =>
        match h (DatasetResource_new db p) w3 with
        | (Raise e, w4) =>
            (Raise e, w4, [Called (UserResource_new db) (Return u);
                           Called (MetadataTypeResource_new db) (Return mt);
                           Called (ProductResource_new db mt) (Return p);
                           Called (DatasetResource_new db p) (Raise e)])
        | (Return d, w4) =>
            (Return (Build_Index T db u mt p d), w4,
             [Called (UserResource_new db) (Return u);
              Called (MetadataTypeResource_new db) (Return mt);
              Called (ProductResource_new db mt) (Return p);
              Called (DatasetResource_new db p) (Return d)])
        end
      end
    end
  end.
Proof.
  unfold __init__. cbn [bind ret Monad_M]. unfold M_bind, M_ret, call.
  destruct (h (UserResource_new db) w) as [[u|e] w1]; [|reflexivity].
  destruct (h (MetadataTypeResource_new db) w1) as [[mt|e] w2]; [|reflexivity].
  destruct (h (ProductResource_new db mt) w2) as [[p|e] w3]; [|reflexivity].
  destruct (h (DatasetResource_new db p) w3) as [[d|e] w4]; reflexivity.
Qed.

(** The record of a construction: the constructors in their order, on
    [db], each dependent manager built from the one just constructed. *)
Lemma Index_init_record (db : PostgresDb T) (w : World T)
    (o : Outcome T (Index T)) (w' : World T) (t : list (Event T)) :
  __init__ h db w = (o, w', t) ->
  (exists n, map constructed (calls t) =
             firstn n [Some (Users, db); Some (MetadataTypes, db);
                       Some (Products, db); Some (Datasets, db)]) /\
  (forall db' mt, In (ProductResource_new db' mt) (calls t) ->
     In (Called (MetadataTypeResource_new db) (Return mt)) t) /\
  (forall db' p, In (DatasetResource_new db' p) (calls t) ->
     exists mt, In (Called (ProductResource_new db mt) (Return p)) t) /\
  (forall idx, o = Return idx ->
     _db idx = db /\
     t = [Called (UserResource_new db) (Return (users idx));
          Called (MetadataTypeResource_new db) (Return (metadata_types idx));
          Called (ProductResource_new db (metadata_types idx)) (Return (products idx));
          Called (DatasetResource_new db (products idx)) (Return (datasets idx))]) /\
  (Forall returned t -> exists idx, o = Return idx).
Proof.
  intros Hrun. rewrite Index_init_run in Hrun.
  destruct (h (UserResource_new db) w) as [[u|e] w1].
  2:{ inversion Hrun; subst. cbn.
      split; [exists 1; reflexivity|]. split; [intros ? ? [H|[]]; discriminate|].
      split; [intros ? ? [H|[]]; discriminate|]. split; [discriminate|].
      intros Hr. inversion Hr as [|? ? Hc _]. destruct Hc. }
  destruct (h (MetadataTypeResource_new db) w1) as [[mt|e] w2].
  2:{ inversion Hrun; subst. cbn.
      split; [exists 2; reflexivity|].
      split; [intros ? ? [H|[H|[]]]; discriminate|].
      split; [intros ? ? [H|[H|[]]]; discriminate|]. split; [discriminate|].
      intros Hr. inversion Hr as [|? ? _ Hr1]. inversion Hr1 as [|? ? Hc _]. destruct Hc. }
  destruct (h (ProductResource_new db mt) w2) as [[p|e] w3].
  2:{ inversion Hrun; subst. cbn.
      split; [exists 3; reflexivity|].
      split; [intros ? ? [H|[H|[H|[]]]]; try discriminate;
              inversion H; subst; right; left; reflexivity|].
      split; [intros ? ? [H|[H|[H|[]]]]; discriminate|]. split; [discriminate|].
      intros Hr. inversion Hr as [|? ? _ Hr1]. inversion Hr1 as [|? ? _ Hr2].
      inversion Hr2 as [|? ? Hc _]. destruct Hc. }
  assert (Hmt : forall db' mt', In (ProductResource_new db' mt') (calls t) ->
                In (Called (MetadataTypeResource_new db) (Return mt')) t).
  { destruct (h (DatasetResource_new db p) w3) as [[d|e] w4];
      inversion Hrun; subst; cbn;
      intros ? ? [H|[H|[H|[H|[]]]]]; try discriminate;
      inversion H; subst; right; left; reflexivity. }
  assert (Hp : forall db' p', In (DatasetResource_new db' p') (calls t) ->
               exists mt', In (Called (ProductResource_new db mt') (Return p')) t).
  { destruct (h (DatasetResource_new db p) w3) as [[d|e] w4];
      inversion Hrun; subst; cbn;
      intros ? ? [H|[H|[H|[H|[]]]]]; try discriminate;
      inversion H; subst; exists mt; right; right; left; reflexivity. }
  destruct (h (DatasetResource_new db p) w3) as [[d|e] w4].
  - inversion Hrun; subst.
    split; [exists 4; reflexivity|]. split; [exact Hmt|]. split; [exact Hp|].
    split.
    + intros idx Hidx. inversion Hidx; subst. cbn. split; reflexivity.
    + intros _. eexists. reflexivity.
  - inversion Hrun; subst.
    split; [exists 4; reflexivity|]. split; [exact Hmt|]. split; [exact Hp|].
    split; [discriminate|].
    intros Hr. inversion Hr as [|? ? _ Hr1]. inversion Hr1 as [|? ? _ Hr2].
    inversion Hr2 as [|? ? _ Hr3]. inversion Hr3 as [|? ? Hc _]. destruct Hc.
Qed.

(** C3.  Index(db) constructs the managers in a fixed order, the users
    manager, then metadata types, then products, then datasets, each on the
    one connection handle [db]; the products manager is built from the
    metadata-types manager that was just constructed and the datasets
    manager from the products manager that was just constructed; the index
    returned holds [db] and these four managers; and the construction
    returns whenever no constructor raises. *)
Theorem Index_init_wires_in_order (db : PostgresDb T) (w : World T)
    (o : Outcome T (Index T)) (w' : World T) (t : list (Event T)) :
  __init__ h db w = (o, w', t) ->
  (exists n, map constructed (calls t) =
             firstn n [Some (Users, db); Some (MetadataTypes, db);
                       Some (Products, db); Some (Datasets, db)]) /\
  (forall db' mt, In (ProductResource_new db' mt) (calls t) ->
     In (Called (MetadataTypeResource_new db) (Return mt)) t) /\
  (forall db' p, In (DatasetResource_new db' p) (calls t) ->
     exists mt, In (Called (ProductResource_new db mt) (Return p)) t) /\
  (forall idx, o = Return idx ->
     _db idx = db /\
     t = [Called (UserResource_new db) (Return (users idx));
          Called (MetadataTypeResource_new db) (Return (metadata_types idx));
          Called (ProductResource_new db (metadata_types idx)) (Return (products idx));
          Called (DatasetResource_new db (products idx)) (Return (datasets idx))]) /\
  (Forall returned t -> exists idx, o = Return idx).
Proof.
  apply Index_init_record.
Qed.

(** from_config is the construct-from-configuration call of the connection
    handle followed by the construction of the index. *)
Lemma from_config_run (config : Config T) (an : Arg (option string)) (vc : Arg bool)
    (w : World T) :
  from_config h config an vc w =
  match h (PostgresDb_from_config config (arg_or None an) (arg_or true vc)) w with
  | (Raise e, w1) =>
      (Raise e, w1,
       [Called (PostgresDb_from_config config (arg_or None an) (arg_or true vc)) (Raise e)])
  | (Return db, w1) =>
      match __init__ h db w1 with
      | (o, w2, t2) =>
          (o, w2,
           Called (PostgresDb_from_config config (arg_or None an) (arg_or true vc))
                  (Return db) :: t2)
      end
  end.
Proof.
  unfold from_config. cbn [bind Monad_M]. unfold M_bind, call.
  destruct (h (PostgresDb_from_config config (arg_or None an) (arg_or true vc)) w)
    as [[db|e] w1]; reflexivity.
Qed.

(** What from_config calls first, how often, and how it ends when that
    call raises and when from_config returns. *)
Lemma from_config_record (config : Config T) (an : Arg (option string))
    (vc : Arg bool) (w : World T)
    (o : Outcome T (Index T)) (w' : World T) (t : list (Event T)) :
  from_config h config an vc w = (o, w', t) ->
  let connect := PostgresDb_from_config config (arg_or None an) (arg_or true vc) in
  hd_error t = Some (Called connect (fst (h connect w))) /\
  List.length (filter is_from_config_call (calls t)) = 1 /\
  (forall e, fst (h connect w) = Raise e ->
     o = Raise e /\ w' = snd (h connect w) /\ t = [Called connect (Raise e)]) /\
  (forall idx, o = Return idx ->
     fst (h connect w) = Return (_db idx) /\
     t = [Called connect (Return (_db idx));
          Called (UserResource_new (_db idx)) (Return (users idx));
          Called (MetadataTypeResource_new (_db idx)) (Return (metadata_types idx));
          Called (ProductResource_new (_db idx) (metadata_types idx))
                 (Return (products idx));
          Called (DatasetResource_new (_db idx) (products idx))
                 (Return (datasets idx))]).
Proof.
  intros Hrun connect. subst connect. rewrite from_config_run in Hrun.
  destruct (h (PostgresDb_from_config config (arg_or None an) (arg_or true vc)) w)
    as [[db|e] w1]; cbn [fst snd].
  - destruct (__init__ h db w1) as [[o2 w2] t2] eqn:Hinit.
    inversion Hrun; subst.
    destruct (Index_init_record db w1 Hinit) as ([n Hn] & _ & _ & Hidx & _).
    split; [reflexivity|]. split; [|split].
    + change (calls (Called (PostgresDb_from_config config (arg_or None an)
                               (arg_or true vc)) (Return db) :: t2))
        with (PostgresDb_from_config config (arg_or None an) (arg_or true vc)
              :: calls t2).
      cbn [filter is_from_config_call List.length]. f_equal.
      assert (Hnone : forall cs : list (Call T),
                 Forall (fun c => constructed c <> None) cs ->
                 filter is_from_config_call cs = []).
      { induction cs as [|c cs IH]; intros Hcs; [reflexivity|].
        inversion Hcs as [|? ? Hc Hcs']; subst. cbn.
        destruct c; cbn in *; try (apply IH; assumption); congruence. }
      rewrite Hnone; [reflexivity|].
      apply Forall_forall. intros c Hc Hcontra.
      apply (in_map constructed) in Hc. rewrite Hn, Hcontra in Hc.
      revert Hc. destruct n as [|[|[|[|[|n]]]]]; cbn; intuition discriminate.
    + discriminate.
    + intros idx Ho. destruct (Hidx idx Ho) as [Hdb Ht]. subst db.
      split; [reflexivity|]. rewrite Ht. reflexivity.
  - inversion Hrun; subst.
    split; [reflexivity|]. split; [reflexivity|]. split.
    + intros e0 He. inversion He; subst. repeat split.
    + discriminate.
Qed.

(** Where the constructors of the managers return, Index(db) returns. *)
Lemma Index_init_returns (db : PostgresDb T) (w : World T) :
  (forall c w0, constructed c <> None -> exists r, fst (h c w0) = Return r) ->
  exists idx, fst (fst (__init__ h db w)) = Return idx.
Proof.
  intros Hctor. rewrite Index_init_run.
  assert (Hu : constructed (UserResource_new db) <> None) by discriminate.
  destruct (Hctor _ w Hu) as [u Eu].
  destruct (h (UserResource_new db) w) as [ou w1]. cbn [fst] in Eu. subst ou.
  assert (Hm : constructed (MetadataTypeResource_new db) <> None) by discriminate.
  destruct (Hctor _ w1 Hm) as [mt Em].
  destruct (h (MetadataTypeResource_new db) w1) as [om w2]. cbn [fst] in Em. subst om.
  assert (Hp : constructed (ProductResource_new db mt) <> None) by discriminate.
  destruct (Hctor _ w2 Hp) as [p Ep].
  destruct (h (ProductResource_new db mt) w2) as [op w3]. cbn [fst] in Ep. subst op.
  assert (Hd : constructed (DatasetResource_new db p) <> None) by discriminate.
  destruct (Hctor _ w3 Hd) as [d Ed].
  destruct (h (DatasetResource_new db p) w3) as [od w4]. cbn [fst] in Ed. subst od.
  eexists. reflexivity.
Qed.

(** C4.  from_config first calls the construct-from-configuration operation
    of the connection handle, with the configuration, the application name
    and the validation flag as given (None and True when left out), and
    calls it once.  When that operation raises, from_config raises the same
    exception and has done nothing else.  When from_config returns, that
    operation had returned the connection handle of the index, before any
    manager was constructed, and the index is fully wired on it.  Where the
    constructors of the resource managers return, these are the only two
    ways from_config ends: it returns an index wired on the connection
    handle that the operation returned, or it raises the exception that the
    operation raised, having called nothing else. *)
Theorem from_config_delegates (config : Config T) (an : Arg (option string))
    (vc : Arg bool) (w : World T)
    (o : Outcome T (Index T)) (w' : World T) (t : list (Event T)) :
  from_config h config an vc w = (o, w', t) ->
  let connect := PostgresDb_from_config config (arg_or None an) (arg_or true vc) in
  hd_error t = Some (Called connect (fst (h connect w))) /\
  List.length (filter is_from_config_call (calls t)) = 1 /\
  (forall e, fst (h connect w) = Raise e ->
     o = Raise e /\ w' = snd (h connect w) /\ t = [Called connect (Raise e)]) /\
  (forall idx, o = Return idx ->
     fst (h connect w) = Return (_db idx) /\
     t = [Called connect (Return (_db idx));
          Called (UserResource_new (_db idx)) (Return (users idx));
          Called (MetadataTypeResource_new (_db idx)) (Return (metadata_types idx));
          Called (ProductResource_new (_db idx) (metadata_types idx))
                 (Return (products idx));
          Called (DatasetResource_new (_db idx) (products idx))
                 (Return (datasets idx))]) /\
  ((forall c w0, constructed c <> None -> exists r, fst (h c w0) = Return r) ->
     (exists idx,
        o = Return idx /\ fst (h connect w) = Return (_db idx) /\
        t = [Called connect (Return (_db idx));
             Called (UserResource_new (_db idx)) (Return (users idx));
             Called (MetadataTypeResource_new (_db idx)) (Return (metadata_types idx));
             Called (ProductResource_new (_db idx) (metadata_types idx))
                    (Return (products idx));
             Called (DatasetResource_new (_db idx) (products idx))
                    (Return (datasets idx))]) \/
     (exists e,
        o = Raise e /\ fst (h connect w) = Raise e /\
        w' = snd (h connect w) /\ t = [Called connect (Raise e)])).
Proof.
  intros Hrun connect.
  destruct (from_config_record config an vc w Hrun) as (C1 & C2 & C3 & C4).
  fold connect in C1, C2, C3, C4.
  split; [exact C1|]. split; [exact C2|]. split; [exact C3|]. split; [exact C4|].
  intros Hctor.
  destruct (fst (h connect w)) as [db|e] eqn:Hconn.
  - left.
    assert (Hret : exists idx, o = Return idx).
    { subst connect. rewrite from_config_run in Hrun.
      destruct (h (PostgresDb_from_config config (arg_or None an) (arg_or true vc)) w)
        as [o0 w1]. cbn [fst] in Hconn. subst o0.
      destruct (Index_init_returns db w1 Hctor) as [idx Hidx].
      destruct (__init__ h db w1) as [[o2 w2] t2]. cbn [fst] in Hidx. subst o2.
      inversion Hrun; subst. exists idx. reflexivity. }
    destruct Hret as [idx Ho]. exists idx.
    destruct (C4 idx Ho) as [Hdb Ht].
    split; [exact Ho|]. split; [exact Hdb | exact Ht].
  - right. exists e. destruct (C3 e eq_refl) as (Ho & Hw & Ht).
    split; [exact Ho|]. split; [reflexivity|]. split; [exact Hw | exact Ht].
Qed.

(** ** The driver entry point *)

(** C9.  connect_to_index is from_config: on every configuration, with the
    application name and the validation flag given or left out, it makes
    the same calls and ends with the same index or the same exception, in
    the same state of the store. *)
Theorem connect_to_index_is_from_config (config : Config T)
    (an : Arg (option string)) (vc : Arg bool) (w : World T) :
  connect_to_index h config an vc w = from_config h config an vc w.
Proof.
  unfold connect_to_index. destruct an, vc; reflexivity.
Qed.

(** ** Release of the connection *)

(** The with statement on an index, in terms of its body and of the close
    operation of the connection handle. *)
Lemma with_Index_run {A : Type} (self : Index T) (body : Index T -> M T A)
    (w : World T) :
  with_ (CM := Index_ContextManager h) self body w =
  match body self w with
  | (ob, wb, tb) =>
      match h (PostgresDb_close (_db self)) wb with
      | (Raise e', w3) =>
          (Raise e', w3, tb ++ [Called (PostgresDb_close (_db self)) (Raise e')])
      | (Return u, w3) =>
          (match ob with
           | Return x => Return (Some x)
           | Raise e => Raise e
           end, w3, tb ++ [Called (PostgresDb_close (_db self)) (Return u)])
      end
  end.
Proof.
  unfold with_. cbn [cm_enter cm_exit Index_ContextManager].
  unfold __enter__, __exit__, close. cbn [bind ret Monad_M].
  unfold M_bind, M_ret, call. cbn [app].
  destruct (body self w) as [[[x|e] wb] tb];
    destruct (h (PostgresDb_close (_db self)) wb) as [[u|e'] w3];
    cbn [truthy app]; rewrite ?app_nil_r; reflexivity.
Qed.

(** C2.  On every way out of [with index: body], whether the body returned
    or raised, the close operation of the connection handle of the index is
    called, once, after everything the body did, in the state of the store
    that the body left; it is the last thing the statement does. *)
Theorem with_Index_always_closes {A : Type} (self : Index T)
    (body : Index T -> M T A) (w : World T)
    (ob : Outcome T A) (wb : World T) (tb : list (Event T))
    (o : Outcome T (option A)) (w' : World T) (t : list (Event T)) :
  body self w = (ob, wb, tb) ->
  with_ (CM := Index_ContextManager h) self body w = (o, w', t) ->
  t = tb ++ [Called (PostgresDb_close (_db self))
                    (fst (h (PostgresDb_close (_db self)) wb))] /\
  w' = snd (h (PostgresDb_close (_db self)) wb).
Proof.
  intros Hbody Hwith. rewrite with_Index_run, Hbody in Hwith.
  destruct (h (PostgresDb_close (_db self)) wb) as [[u|e'] w3];
    inversion Hwith; subst; split; reflexivity.
Qed.

(** C10.  __enter__ answers the index itself and does nothing else.  What
    __exit__ does and answers does not depend on the exception details it
    is given, and when it returns, it returns a false value.  So a with
    statement on an index never swallows the exception of its body: when
    the body raises [e] and the close operation then returns, the statement
    raises [e]. *)
Theorem Index_context_never_suppresses (self : Index T) :
  (forall w, __enter__ self w = (Return self, w, [])) /\
  (forall ty v tb ty' v' tb' w,
     __exit__ h self ty v tb w = __exit__ h self ty' v' tb' w) /\
  (forall ty v tb w r w' t,
     __exit__ h self ty v tb w = (Return r, w', t) -> truthy r = false) /\
  (forall (A : Type) (body : Index T -> M T A) w e wb tb o w' t,
     body self w = (Raise e, wb, tb) ->
     with_ (CM := Index_ContextManager h) self body w = (o, w', t) ->
     o <> Return None /\
     (forall u, fst (h (PostgresDb_close (_db self)) wb) = Return u -> o = Raise e)).
Proof.
  split; [reflexivity|]. split; [reflexivity|]. split.
  - intros ty v tb w r w' t. unfold __exit__, close.
    cbn [bind ret Monad_M]. unfold M_bind, M_ret, call.
    destruct (h (PostgresDb_close (_db self)) w) as [[u|e] w1]; intros Hrun;
      inversion Hrun; subst; reflexivity.
  - intros A body w e wb tb o w' t Hbody Hwith.
    rewrite with_Index_run, Hbody in Hwith.
    destruct (h (PostgresDb_close (_db self)) wb) as [[u|e'] w3];
      inversion Hwith; subst; cbn [fst]; split; try discriminate.
    + intros _ _. reflexivity.
Qed.

(** close() twice, where the close operation of the connection handle
    never raises and is idempotent on the store. *)
Lemma close_twice (self : Index T) (w : World T) :
  (forall db w0, fst (h (PostgresDb_close db) w0) = Return tt) ->
  (forall db w0, snd (h (PostgresDb_close db) (snd (h (PostgresDb_close db) w0)))
                 = snd (h (PostgresDb_close db) w0)) ->
  forall o1 w1 t1 o2 w2 t2,
  close h self w = (o1, w1, t1) ->
  (close h self ;; close h self) w = (o2, w2, t2) ->
  o1 = Return tt /\ o2 = Return tt /\ w2 = w1 /\
  (forall (B : Type) (m : Index T -> M T B) o3 w3 t3,
     m self w1 = (o3, w3, t3) ->
     (close h self ;; m self) w = (o3, w3, t1 ++ t3)).
Proof.
  intros Hret Hidem o1 w1 t1 o2 w2 t2 H1 H2.
  assert (Hc : forall w0,
             close h self w0 =
             (Return tt, snd (h (PostgresDb_close (_db self)) w0),
              [Called (PostgresDb_close (_db self)) (Return tt)])).
  { intros w0. unfold close, call. pose proof (Hret (_db self) w0) as Hr.
    destruct (h (PostgresDb_close (_db self)) w0) as [oc wc].
    cbn [fst snd] in *. subst oc. reflexivity. }
  cbn [bind Monad_M] in H2. unfold M_bind in H2.
  rewrite (Hc w) in H1, H2. rewrite Hc in H2.
  inversion H1; subst. inversion H2; subst.
  split; [reflexivity|]. split; [reflexivity|]. split; [apply Hidem|].
  intros B m o3 w3 t3 Hm. cbn [bind Monad_M]. unfold M_bind.
  rewrite Hc. cbv beta iota.
  match goal with |- context [m self ?x] => replace (m self x) with (o3, w3, t3) end.
  reflexivity.
Qed.

(** Runs of the monad on states of the store that a handler does not tell
    apart. *)
Lemma alike_ret {A : Type} (R : World T -> World T -> Prop) (x : A) (w1 w2 : World T) :
  R w1 w2 -> alike R (ret (m := M T) x w1) (ret (m := M T) x w2).
Proof. intros HR. repeat split. exact HR. Qed.

Lemma alike_log (R : World T -> World T -> Prop) (msg : string) (w1 w2 : World T) :
  R w1 w2 -> alike R (_LOG_info T msg w1) (_LOG_info T msg w2).
Proof. intros HR. repeat split. exact HR. Qed.

Lemma alike_call (R : World T -> World T -> Prop) (c : Call T) (w1 w2 : World T) :
  blind_to h R -> R w1 w2 -> alike R (call h c w1) (call h c w2).
Proof.
  intros Hblind HR. destruct (Hblind c w1 w2 HR) as [Ho Hw]. unfold call.
  destruct (h c w1) as [o1 w1']. destruct (h c w2) as [o2 w2'].
  cbn [fst snd] in Ho, Hw. subst o2. repeat split. exact Hw.
Qed.

Lemma alike_bind {A B : Type} (R : World T -> World T -> Prop)
    (m : M T A) (k : A -> M T B) (w1 w2 : World T) :
  alike R (m w1) (m w2) ->
  (forall x w1' w2', R w1' w2' -> alike R (k x w1') (k x w2')) ->
  alike R (bind m k w1) (bind m k w2).
Proof.
  intros Hm Hk. cbn [bind Monad_M]. unfold M_bind.
  destruct (m w1) as [[o1 w1'] t1]. destruct (m w2) as [[o2 w2'] t2].
  destruct Hm as (Ho & Ht & Hw). cbn [fst snd] in Ho, Ht, Hw. subst o2 t2.
  destruct o1 as [x|e].
  - specialize (Hk x w1' w2' Hw).
    destruct (k x w1') as [[o3 w3] t3]. destruct (k x w2') as [[o4 w4] t4].
    destruct Hk as (Ho & Ht & Hw'). cbn [fst snd] in Ho, Ht, Hw'. subst o4 t4.
    repeat split. exact Hw'.
  - repeat split. exact Hw.
Qed.

Lemma alike_for_in {A : Type} (R : World T -> World T -> Prop)
    (xs : list A) (body : A -> M T unit) :
  (forall x w1 w2, R w1 w2 -> alike R (body x w1) (body x w2)) ->
  forall w1 w2, R w1 w2 -> alike R (for_in xs body w1) (for_in xs body w2).
Proof.
  intros Hbody. induction xs as [|x xs IH]; intros w1 w2 HR.
  - apply alike_ret. exact HR.
  - cbn [for_in]. apply alike_bind.
    + apply Hbody. exact HR.
    + intros _ w1' w2' HR'. apply IH. exact HR'.
Qed.

Lemma init_db_alike (R : World T -> World T -> Prop) (self : Index T)
    (a b : Arg bool) (w1 w2 : World T) :
  blind_to h R -> R w1 w2 ->
  alike R (init_db h self a b w1) (init_db h self a b w2).
Proof.
  intros Hblind HR. unfold init_db. cbv zeta.
  apply alike_bind; [apply alike_call; assumption|].
  intros is_new w1' w2' HR'.
  apply alike_bind; [|intros; apply alike_ret; assumption].
  destruct (is_new && arg_or true a); [|apply alike_ret; exact HR'].
  apply alike_bind; [apply alike_log; exact HR'|]. intros _ w3 w4 HR3.
  apply alike_bind; [apply alike_call; assumption|]. intros docs w5 w6 HR5.
  apply alike_for_in; [|exact HR5]. intros doc w7 w8 HR7.
  apply alike_bind; [apply alike_call; assumption|]. intros mt w9 w10 HR9.
  exact (@alike_call R (MetadataTypeResource_add (metadata_types self) mt true)
           w9 w10 Hblind HR9).
Qed.

(** C7.  Where the close operation of the connection handle never raises
    and, made a second time, leaves the store as the first left it:
    close() on the index returns, and close() twice in succession returns
    and leaves the store as one close() left it.  Where moreover the
    connection handle and the registry answer every call alike before and
    after a close (closing releases connections and changes no answer),
    the index is as usable after close() as before: init_db, url and
    close() end after close() as they would have ended without it, with
    the same result or exception and the same calls answered alike. *)
Theorem close_idempotent (self : Index T) (w : World T) :
  (forall db w0, fst (h (PostgresDb_close db) w0) = Return tt) ->
  (forall db w0, snd (h (PostgresDb_close db) (snd (h (PostgresDb_close db) w0)))
                 = snd (h (PostgresDb_close db) w0)) ->
  forall o1 w1 t1 o2 w2 t2,
  close h self w = (o1, w1, t1) ->
  (close h self ;; close h self) w = (o2, w2, t2) ->
  o1 = Return tt /\ o2 = Return tt /\ w2 = w1 /\
  (forall (B : Type) (m : Index T -> M T B) o3 w3 t3,
     m self w1 = (o3, w3, t3) ->
     (close h self ;; m self) w = (o3, w3, t1 ++ t3)) /\
  (forall R : World T -> World T -> Prop,
     (forall db w0, R w0 (snd (h (PostgresDb_close db) w0))) ->
     blind_to h R ->
     (forall a b, alike R (init_db h self a b w) (init_db h self a b w1)) /\
     alike R (url h self w) (url h self w1) /\
     alike R (close h self w) (close h self w1)).
Proof.
  intros Hret Hidem o1 w1 t1 o2 w2 t2 H1 H2.
  destruct (close_twice self w Hret Hidem H1 H2) as (C1 & C2 & C3 & C4).
  split; [exact C1|]. split; [exact C2|]. split; [exact C3|]. split; [exact C4|].
  intros R Hclose Hblind.
  assert (HR : R w w1).
  { unfold close, call in H1.
    pose proof (Hclose (_db self) w) as Hc.
    destruct (h (PostgresDb_close (_db self)) w) as [oc wc]. cbn [snd] in Hc.
    inversion H1; subst. exact Hc. }
  split; [|split].
  - intros a b. apply init_db_alike; assumption.
  - exact (@alike_call R (PostgresDb_url (_db self)) w w1 Hblind HR).
  - exact (@alike_call R (PostgresDb_close (_db self)) w w1 Hblind HR).
Qed.

(** C8.  The url of an index is what the url accessor of its connection
    handle answers, and reading it calls nothing else.  Where the close
    operation of the connection handle returns and does not change what the
    url accessor answers, the url read after close() is the url read
    before. *)
Theorem url_read_only (self : Index T) (w : World T) :
  (forall db db' w0,
     fst (h (PostgresDb_url db) (snd (h (PostgresDb_close db') w0)))
     = fst (h (PostgresDb_url db) w0)) ->
  (forall db w0, fst (h (PostgresDb_close db) w0) = Return tt) ->
  forall o w' t o2 w2 t2,
  url h self w = (o, w', t) ->
  (close h self ;; url h self) w = (o2, w2, t2) ->
  o = fst (h (PostgresDb_url (_db self)) w) /\
  t = [Called (PostgresDb_url (_db self)) o] /\
  o2 = o.
Proof.
  intros Hkeep Hret o w' t o2 w2 t2 H1 H2.
  cbn [bind Monad_M] in H2. unfold M_bind, close, url, call in H1, H2.
  pose proof (Hret (_db self) w) as Hr.
  pose proof (Hkeep (_db self) (_db self) w) as Hk.
  destruct (h (PostgresDb_close (_db self)) w) as [oc wc]. cbn [fst snd] in Hr, Hk.
  subst oc.
  destruct (h (PostgresDb_url (_db self)) w) as [ou wu]. cbn [fst] in Hk |- *.
  destruct (h (PostgresDb_url (_db self)) wc) as [ou2 wu2]. cbn [fst] in Hk.
  inversion H1; subst. inversion H2; subst.
  split; [reflexivity|]. split; reflexivity.
Qed.

End FacadeProperties.

(** * The properties on the reference store *)

Module OnStore.

Import Store.

#[local] Existing Instance Monad_M.

(** init_db(with_default_types=False) on a fresh store returns True and
    seeds nothing although the schema was created; init_db() on a store
    that exists returns False and leaves the registry as it was; init_db()
    on a fresh store returns True and adds the two default documents. *)
Lemma init_db_returns_is_new_witness :
  init_db backend an_index (Given false) Omitted fresh
  = (Return true, created, [init_ev true]) /\
  (existsb is_seeding_call (calls [init_ev true]) = true <->
   @Return types bool true = Return true /\ false = true) /\
  (adds [init_ev true] = [] /\ parsed [init_ev true] = [] /\
   @Return types bool true = Return true /\ created = created) /\
  registry created = [] /\
  fst (fst (init_db backend an_index (Given true) Omitted initialised)) = Return false /\
  registry (snd (fst (init_db backend an_index (Given true) Omitted initialised)))
  = registry initialised /\
  fst (fst (init_db backend an_index Omitted Omitted fresh)) = Return true /\
  registry (snd (fst (init_db backend an_index Omitted Omitted fresh)))
  = ["eo"; "telemetry"] /\
  map fst (parsed (snd (init_db backend an_index Omitted Omitted fresh)))
  = default_docs /\
  adds (snd (init_db backend an_index Omitted Omitted fresh))
  = [(a_db, "eo", true); (a_db, "telemetry", true)].
Proof.
  pose proof (@init_db_returns_is_new types backend an_index (Given false) Omitted
                fresh _ _ _ eq_refl) as Hoff.
  pose proof (@init_db_returns_is_new types backend an_index Omitted Omitted
                fresh _ _ _ eq_refl) as Hon.
  split; [reflexivity|].
  split; [exact (proj1 (proj2 (proj2 Hoff)))|].
  split; [exact (proj1 (proj2 (proj2 (proj2 (proj2 (proj2 Hoff)))))
                   (or_intror eq_refl))|].
  split; [reflexivity|]. split; [reflexivity|]. split; [reflexivity|].
  split; [reflexivity|]. split; [reflexivity|].
  exact (proj2 (proj2 (proj2
    (proj2 (proj2 (proj2 (proj2 (proj2 (proj2 Hon)))))
       default_docs created eq_refl eq_refl eq_refl))) true eq_refl).
Defined.

(** init_db() on a fresh store adds the two default documents, each once,
    in their order, with the table lock. *)
Lemma init_db_seeds_defaults_in_order_witness :
  init_db backend an_index Omitted Omitted fresh
  = (Return true,
     {| schema_exists := true; registry := ["eo"; "telemetry"];
        idle_connections := 1; faulty := []; broken_schema := false |},
     [init_ev true; Logged "Adding default metadata types."; docs_ev;
      from_doc_ev "eo"; add_ev "eo" (Return tt);
      from_doc_ev "telemetry"; add_ev "telemetry" (Return tt)]) /\
  adds [init_ev true; Logged "Adding default metadata types."; docs_ev;
        from_doc_ev "eo"; add_ev "eo" (Return tt);
        from_doc_ev "telemetry"; add_ev "telemetry" (Return tt)]
  = [(a_db, "eo", true); (a_db, "telemetry", true)].
Proof.
  split; [reflexivity|].
  exact (proj2 (proj2 (proj2 (proj2
    (@init_db_seeds_defaults_in_order types backend an_index Omitted Omitted
       fresh created created default_docs _ _ _ eq_refl eq_refl eq_refl eq_refl)))
    true eq_refl)).
Defined.

(** When the addition of the second default document fails, init_db raises
    that failure and the first document stays in the registry. *)
Lemma init_db_errors_propagate_witness :
  init_db backend an_index Omitted Omitted (fresh_failing ["telemetry"])
  = (@Raise types _ (DefaultSeedingError "telemetry"),
     {| schema_exists := true; registry := ["eo"];
        idle_connections := 1; faulty := ["telemetry"]; broken_schema := false |},
     [init_ev true; Logged "Adding default metadata types."; docs_ev;
      from_doc_ev "eo"; add_ev "eo" (Return tt);
      from_doc_ev "telemetry";
      add_ev "telemetry" (@Raise types _ (DefaultSeedingError "telemetry"))]) /\
  (forall ev e,
     In ev [init_ev true; Logged "Adding default metadata types."; docs_ev;
            from_doc_ev "eo"; add_ev "eo" (Return tt);
            from_doc_ev "telemetry";
            add_ev "telemetry" (@Raise types _ (DefaultSeedingError "telemetry"))] ->
     raised ev = Some e ->
     @Raise types bool (DefaultSeedingError "telemetry") = Raise e).
Proof.
  split; [reflexivity|].
  exact (proj1
    (@init_db_errors_propagate types backend an_index Omitted Omitted
       (fresh_failing ["telemetry"]) _ _ _ eq_refl)).
Defined.

(** Index(a_db) on the reference store. *)
Lemma Index_init_wires_in_order_witness :
  __init__ backend a_db fresh = (Return an_index, fresh, wiring) /\
  (_db an_index = a_db /\ wiring = wiring).
Proof.
  split; [reflexivity|].
  exact (proj1 (proj2 (proj2 (proj2
    (@Index_init_wires_in_order types backend a_db fresh _ _ _ eq_refl))))
    an_index eq_refl).
Defined.

(** Index.from_config on a configuration whose store does not answer raises
    the connectivity error of the connection handle and builds nothing; on
    one whose store answers it returns an index on the handle opened.  The
    constructors of the reference store return. *)
Lemma from_config_delegates_witness :
  from_config backend bad_config (Given (Some "app")) Omitted fresh
  = (@Raise types _ ConnectivityError, fresh,
     [Called (@PostgresDb_from_config types bad_config (Some "app") true)
             (@Raise types _ ConnectivityError)]) /\
  List.length (filter is_from_config_call
     (calls [Called (@PostgresDb_from_config types bad_config (Some "app") true)
                    (@Raise types _ ConnectivityError)])) = 1 /\
  fst (fst (from_config backend good_config (Given (Some "app")) Omitted fresh))
  = Return an_index /\
  (forall (c : Call types) (w0 : world),
     constructed c <> None -> exists r, fst (backend c w0) = Return r) /\
  (exists idx,
     fst (fst (from_config backend good_config (Given (Some "app")) Omitted fresh))
     = Return idx /\ _db idx = a_db) /\
  (exists e,
     fst (fst (from_config backend bad_config (Given (Some "app")) Omitted fresh))
     = Raise e /\
     fst (backend (@PostgresDb_from_config types bad_config (Some "app") true) fresh)
     = Raise e).
Proof.
  assert (Hctor : forall (c : Call types) (w0 : world),
             constructed c <> None -> exists r, fst (backend c w0) = Return r).
  { intros c w0 Hc. destruct c; cbn in Hc; try (exfalso; apply Hc; reflexivity);
      cbn; eexists; reflexivity. }
  pose proof (@from_config_delegates types backend bad_config (Given (Some "app"))
                Omitted fresh _ _ _ eq_refl) as Hbad.
  pose proof (@from_config_delegates types backend good_config (Given (Some "app"))
                Omitted fresh _ _ _ eq_refl) as Hgood.
  split; [reflexivity|].
  split; [exact (proj1 (proj2 Hbad))|].
  split; [reflexivity|]. split; [exact Hctor|]. split.
  - destruct (proj2 (proj2 (proj2 (proj2 Hgood))) Hctor)
      as [(idx & Ho & Hdb & _)|(e & Ho & _)].
    + exists idx. split; [exact Ho|]. cbn in Hdb. inversion Hdb. reflexivity.
    + cbn in Ho. discriminate Ho.
  - destruct (proj2 (proj2 (proj2 (proj2 Hbad))) Hctor)
      as [(idx & Ho & _)|(e & Ho & Hc & _)].
    + cbn in Ho. discriminate Ho.
    + exists e. split; [exact Ho | exact Hc].
Defined.

(** A with block whose body fails while seeding: close is called after the
    body, and also when the body succeeds. *)
Lemma with_Index_always_closes_witness :
  seed an_index (fresh_failing ["eo"])
  = (@Raise types _ (DefaultSeedingError "eo"),
     {| schema_exists := true; registry := [];
        idle_connections := 1; faulty := ["eo"]; broken_schema := false |},
     [init_ev true; Logged "Adding default metadata types."; docs_ev;
      from_doc_ev "eo"; add_ev "eo" (@Raise types _ (DefaultSeedingError "eo"))]) /\
  snd (with_ (CM := Index_ContextManager backend) an_index seed (fresh_failing ["eo"]))
  = [init_ev true; Logged "Adding default metadata types."; docs_ev;
     from_doc_ev "eo"; add_ev "eo" (@Raise types _ (DefaultSeedingError "eo"))]
    ++ [close_ev] /\
  idle_connections
    (snd (fst (with_ (CM := Index_ContextManager backend) an_index seed
                 (fresh_failing ["eo"])))) = 0 /\
  snd (with_ (CM := Index_ContextManager backend) an_index seed fresh)
  = snd (seed an_index fresh) ++ [close_ev].
Proof.
  split; [reflexivity|]. split.
  - exact (proj1
      (@with_Index_always_closes types backend bool an_index seed
         (fresh_failing ["eo"]) _ _ _ _ _ _ eq_refl eq_refl)).
  - split; [reflexivity|].
    exact (proj1
      (@with_Index_always_closes types backend bool an_index seed fresh
         _ _ _ _ _ _ eq_refl eq_refl)).
Defined.

(** The failure of the body of a with block on an index reaches the caller. *)
Lemma Index_context_never_suppresses_witness :
  seed an_index (fresh_failing ["eo"])
  = (@Raise types _ (DefaultSeedingError "eo"),
     {| schema_exists := true; registry := [];
        idle_connections := 1; faulty := ["eo"]; broken_schema := false |},
     [init_ev true; Logged "Adding default metadata types."; docs_ev;
      from_doc_ev "eo"; add_ev "eo" (@Raise types _ (DefaultSeedingError "eo"))]) /\
  fst (fst (with_ (CM := Index_ContextManager backend) an_index seed
              (fresh_failing ["eo"])))
  = @Raise types _ (DefaultSeedingError "eo").
Proof.
  split; [reflexivity|].
  exact (proj2 (proj2 (proj2 (proj2
    (@Index_context_never_suppresses types backend an_index)))
    bool seed (fresh_failing ["eo"]) _ _ _ _ _ _ eq_refl eq_refl) tt eq_refl).
Defined.

(** On the reference store close never raises, a second close changes
    nothing, and no call is answered differently after a close; so close()
    twice leaves the store as close() once does, and after close() on a
    fresh store init_db() still creates the schema and seeds it, and url
    still answers the address. *)
Lemma close_idempotent_witness :
  (forall db w0, fst (backend (@PostgresDb_close types db) w0) = Return tt) /\
  (forall db w0,
     snd (backend (@PostgresDb_close types db)
            (snd (backend (@PostgresDb_close types db) w0)))
     = snd (backend (@PostgresDb_close types db) w0)) /\
  (forall db w0, same_but_idle w0 (snd (backend (@PostgresDb_close types db) w0))) /\
  blind_to backend same_but_idle /\
  snd (fst ((close backend an_index ;; close backend an_index) initialised))
  = snd (fst (close backend an_index initialised)) /\
  fst (fst ((close backend an_index ;; close backend an_index) initialised))
  = Return tt /\
  alike (T := types) same_but_idle
    (init_db backend an_index Omitted Omitted fresh)
    (init_db backend an_index Omitted Omitted
       (snd (fst (close backend an_index fresh)))) /\
  fst (fst (init_db backend an_index Omitted Omitted
              (snd (fst (close backend an_index fresh))))) = Return true /\
  registry (snd (fst (init_db backend an_index Omitted Omitted
              (snd (fst (close backend an_index fresh)))))) = ["eo"; "telemetry"] /\
  alike (T := types) same_but_idle
    (url backend an_index fresh)
    (url backend an_index (snd (fst (close backend an_index fresh)))).
Proof.
  assert (Hclose : forall (db : postgres_db) (w0 : world),
             same_but_idle w0 (snd (backend (@PostgresDb_close types db) w0))).
  { intros db w0. repeat split. }
  assert (Hblind : blind_to backend same_but_idle).
  { intros c w1 w2 (H1 & H2 & H3 & H4).
    destruct w1 as [s1 r1 i1 f1 b1], w2 as [s2 r2 i2 f2 b2].
    cbn in H1, H2, H3, H4. subst s2 r2 f2 b2.
    destruct c; cbn;
      repeat match goal with
             | |- context [if ?x then _ else _] => destruct x
             end; cbn; repeat split. }
  split; [intros; reflexivity|]. split; [intros; reflexivity|].
  split; [exact Hclose|]. split; [exact Hblind|].
  pose proof (@close_idempotent types backend an_index initialised
                (fun _ _ => eq_refl) (fun _ _ => eq_refl)
                _ _ _ _ _ _ eq_refl eq_refl) as H.
  pose proof (@close_idempotent types backend an_index fresh
                (fun _ _ => eq_refl) (fun _ _ => eq_refl)
                _ _ _ _ _ _ eq_refl eq_refl) as Hf.
  split; [exact (proj1 (proj2 (proj2 H)))|]. split; [exact (proj1 (proj2 H))|].
  destruct (proj2 (proj2 (proj2 (proj2 Hf))) same_but_idle Hclose Hblind)
    as (Hinit & Hurl & _).
  split; [exact (Hinit Omitted Omitted)|].
  split; [reflexivity|]. split; [reflexivity|]. exact Hurl.
Defined.

(** On the reference store the url of an index is the same before and
    after close(). *)
Lemma url_read_only_witness :
  (forall db db' w0,
     fst (backend (@PostgresDb_url types db)
            (snd (backend (@PostgresDb_close types db') w0)))
     = fst (backend (@PostgresDb_url types db) w0)) /\
  (forall db w0, fst (backend (@PostgresDb_close types db) w0) = Return tt) /\
  fst (fst (url backend an_index initialised))
  = Return "postgresql://localhost/datacube" /\
  fst (fst ((close backend an_index ;; url backend an_index) initialised))
  = fst (fst (url backend an_index initialised)).
Proof.
  split; [intros; reflexivity|]. split; [intros; reflexivity|].
  pose proof (@url_read_only types backend an_index initialised
                (fun _ _ _ => eq_refl) (fun _ _ => eq_refl)
                _ _ _ _ _ _ eq_refl eq_refl) as H.
  split; [exact (proj1 H) | exact (proj2 (proj2 H))].
Defined.

End OnStore.

(** * Further properties of the facade *)

Section FacadeFurther.

Variable T : Collaborators.
Variable h : Handler T.

#[local] Existing Instance Monad_M.

(** ** What init_db calls *)

(** The loop of init_db calls nothing but from_doc and add, on its registry. *)
Lemma seeding_loop_calls (r : MetadataTypeResource T) (docs : list (Document T)) :
  forall (w : World T) (o : Outcome T unit) (w' : World T) (t : list (Event T)),
  for_in docs (fun doc =>
      mt <- call h (MetadataTypeResource_from_doc r doc) ;;
      call h (MetadataTypeResource_add r mt true)) w = (o, w', t) ->
  Forall (fun c => registry_of c = Some r) (calls t).
Proof.
  induction docs as [|doc docs IH]; intros w o w' t Hrun.
  - inversion Hrun; subst. constructor.
  - cbn [for_in bind ret Monad_M] in Hrun. unfold M_bind, call in Hrun.
    destruct (h (MetadataTypeResource_from_doc r doc) w) as [[mt|e] w1].
    + destruct (h (MetadataTypeResource_add r mt true) w1) as [[u|e] w2].
      * match type of Hrun with
        | context [for_in docs ?body w2] =>
            destruct (for_in docs body w2) as [[o3 w3] t3] eqn:Hrest
        end.
        apply IH in Hrest. inversion Hrun; subst. cbn.
        constructor; [reflexivity|]. constructor; [reflexivity|]. exact Hrest.
      * inversion Hrun; subst. cbn. repeat constructor.
    + inversion Hrun; subst. cbn. repeat constructor.
Qed.

(** The calls of init_db: the init operation, then nothing, or the fetch of
    the default documents followed by calls on the registry of the index. *)
Lemma init_db_calls (self : Index T) (a b : Arg bool) (w : World T)
    (o : Outcome T bool) (w' : World T) (t : list (Event T)) :
  init_db h self a b w = (o, w', t) ->
  calls t = [PostgresDb_init (_db self) (arg_or true b)] \/
  exists rest,
    calls t = PostgresDb_init (_db self) (arg_or true b)
              :: default_metadata_type_docs :: rest /\
    Forall (fun c => registry_of c = Some (metadata_types self)) rest.
Proof.
  intros Hrun. rewrite init_db_run in Hrun.
  destruct (h (PostgresDb_init (_db self) (arg_or true b)) w) as [[is_new|e] w1].
  - destruct (is_new && arg_or true a).
    + right. destruct (h default_metadata_type_docs w1) as [[docs|e] w2].
      * match type of Hrun with
        | context [for_in docs ?body w2] =>
            destruct (for_in docs body w2) as [[o3 w3] t3] eqn:Hloop
        end.
        apply seeding_loop_calls in Hloop. exists (calls t3).
        destruct o3; inversion Hrun; subst; split; try reflexivity; exact Hloop.
      * inversion Hrun; subst. exists []. split; [reflexivity | constructor].
    + left. inversion Hrun; subst. reflexivity.
  - left. inversion Hrun; subst. reflexivity.
Qed.

(** X1.  Whatever the collaborators do, init_db calls the init operation of
    the connection handle exactly once, as its first call, and fetches the
    default documents at most once; every other call is a from_doc or an
    add on the metadata type registry of the index: the calls are the init
    alone, or the init, the fetch of the default documents, and then only
    calls of from_doc and add on that registry.  It never closes the
    connection and never touches the users, products or datasets managers. *)
Theorem init_db_call_discipline (self : Index T) (a b : Arg bool) (w : World T)
    (o : Outcome T bool) (w' : World T) (t : list (Event T)) :
  init_db h self a b w = (o, w', t) ->
  hd_error (calls t) = Some (PostgresDb_init (_db self) (arg_or true b)) /\
  List.length (filter is_init_call (calls t)) = 1 /\
  List.length (filter is_default_docs_call (calls t)) <= 1 /\
  Forall (fun c => is_close_call c = false /\ constructed c = None) (calls t) /\
  Forall (fun c => forall r, registry_of c = Some r -> r = metadata_types self)
         (calls t) /\
  (calls t = [PostgresDb_init (_db self) (arg_or true b)] \/
   exists rest,
     calls t = PostgresDb_init (_db self) (arg_or true b)
               :: default_metadata_type_docs :: rest /\
     Forall (fun c => registry_of c = Some (metadata_types self)) rest).
Proof.
  intros Hrun.
  assert (Hshape := init_db_calls self a b w Hrun).
  assert (Hreg : forall rest : list (Call T),
            Forall (fun c => registry_of c = Some (metadata_types self)) rest ->
            filter is_init_call rest = [] /\
            filter is_default_docs_call rest = [] /\
            Forall (fun c => is_close_call c = false /\ constructed c = None) rest /\
            Forall (fun c => forall r, registry_of c = Some r -> r = metadata_types self)
                   rest).
  { induction rest as [|c rest IH]; intros Hall.
    - repeat split; constructor.
    - inversion Hall as [|? ? Hc Hrest]; subst.
      destruct (IH Hrest) as (I1 & I2 & I3 & I4).
      destruct c; try discriminate Hc; cbn;
        (split; [exact I1|]); (split; [exact I2|]);
        (split; constructor; try assumption; [split; reflexivity|]);
        intros r0 Hr0; cbn in Hc, Hr0; congruence. }
  destruct (init_db_calls self a b w Hrun) as [Hc|(rest & Hc & Hrest)]; rewrite Hc.
  - rewrite Hc in Hshape. cbn.
    split; [reflexivity|]. split; [reflexivity|]. split; [lia|].
    split; [constructor; [split; reflexivity | constructor]|].
    split; [|exact Hshape].
    constructor; [intros r Hr; discriminate Hr | constructor].
  - rewrite Hc in Hshape. destruct (Hreg rest Hrest) as (I1 & I2 & I3 & I4).
    cbn. rewrite I1, I2. cbn.
    split; [reflexivity|]. split; [reflexivity|]. split; [lia|].
    split; [|split; [|exact Hshape]].
    + constructor; [split; reflexivity|]. constructor; [split; reflexivity|]. exact I3.
    + constructor; [intros r Hr; discriminate Hr|].
      constructor; [intros r Hr; discriminate Hr|]. exact I4.
Qed.

(** ** What opening an index calls *)

Lemma Index_init_calls (db : PostgresDb T) (w : World T)
    (o : Outcome T (Index T)) (w' : World T) (t : list (Event T)) :
  __init__ h db w = (o, w', t) ->
  Forall (fun c => exists m, constructed c = Some (m, db)) (calls t).
Proof.
  intros Hrun. rewrite Index_init_run in Hrun.
  destruct (h (UserResource_new db) w) as [[u|e] w1].
  2:{ inversion Hrun; subst. cbn. repeat constructor. eexists. reflexivity. }
  destruct (h (MetadataTypeResource_new db) w1) as [[mt|e] w2].
  2:{ inversion Hrun; subst. cbn. repeat constructor; eexists; reflexivity. }
  destruct (h (ProductResource_new db mt) w2) as [[p|e] w3].
  2:{ inversion Hrun; subst. cbn. repeat constructor; eexists; reflexivity. }
  destruct (h (DatasetResource_new db p) w3) as [[d|e] w4];
    inversion Hrun; subst; cbn; repeat constructor; eexists; reflexivity.
Qed.

Lemma Index_init_faithful (db : PostgresDb T) (w : World T) :
  faithful h w (__init__ h db w).
Proof.
  unfold __init__. cbv zeta.
  apply faithful_bind; [apply faithful_call|]. intros u w1.
  apply faithful_bind; [apply faithful_call|]. intros mt w2.
  apply faithful_bind; [apply faithful_call|]. intros p w3.
  apply faithful_bind; [apply faithful_call|]. intros d w4.
  apply faithful_ret.
Qed.

Lemma from_config_faithful (config : Config T) (an : Arg (option string))
    (vc : Arg bool) (w : World T) :
  faithful h w (from_config h config an vc w).
Proof.
  unfold from_config. cbv zeta.
  apply faithful_bind; [apply faithful_call|]. intros db w1.
  apply Index_init_faithful.
Qed.

(** X2.  Whatever the collaborators do and however it ends, from_config
    calls the construct-from-configuration operation and, after it, only
    constructors of resource managers, each on the connection handle that
    operation returned.  Opening an index never initialises the schema,
    never seeds, and never closes the connection: in particular a
    connection handle that was opened is not released when the construction
    of a manager then fails. *)
Theorem from_config_call_discipline (config : Config T)
    (an : Arg (option string)) (vc : Arg bool) (w : World T)
    (o : Outcome T (Index T)) (w' : World T) (t : list (Event T)) :
  from_config h config an vc w = (o, w', t) ->
  let connect := PostgresDb_from_config config (arg_or None an) (arg_or true vc) in
  exists rest,
    calls t = connect :: rest /\
    Forall (fun c => exists m db,
              constructed c = Some (m, db) /\ fst (h connect w) = Return db) rest /\
    Forall (fun c => is_init_call c = false /\ is_close_call c = false /\
                     is_seeding_call c = false) (calls t).
Proof.
  intros Hrun connect. subst connect. rewrite from_config_run in Hrun.
  assert (Hnever : forall (db : PostgresDb T) (cs : list (Call T)),
             Forall (fun c => exists m, constructed c = Some (m, db)) cs ->
             Forall (fun c => is_init_call c = false /\ is_close_call c = false /\
                              is_seeding_call c = false) cs).
  { intros db cs Hcs. eapply Forall_impl; [|exact Hcs].
    intros c [m Hm]. destruct c; cbn in Hm; try discriminate Hm; repeat split. }
  destruct (h (PostgresDb_from_config config (arg_or None an) (arg_or true vc)) w)
    as [[db|e] w1]; cbn [fst].
  - destruct (__init__ h db w1) as [[o2 w2] t2] eqn:Hinit.
    apply Index_init_calls in Hinit. inversion Hrun; subst.
    exists (calls t2). split; [reflexivity|]. split.
    + eapply Forall_impl; [|exact Hinit].
      intros c [m Hm]. exists m, db. split; [exact Hm | reflexivity].
    + change (calls (Called (PostgresDb_from_config config (arg_or None an)
                               (arg_or true vc)) (Return db) :: t2))
        with (PostgresDb_from_config config (arg_or None an) (arg_or true vc)
              :: calls t2).
      constructor; [repeat split|]. exact (Hnever db (calls t2) Hinit).
  - inversion Hrun; subst. exists []. split; [reflexivity|]. split; [constructor|].
    cbn. constructor; [repeat split | constructor].
Qed.

(** X3.  An exception raised while an index is opened, by the
    construct-from-configuration operation or by the constructor of any
    manager, is the exception that from_config raises; the raising call is
    the last call made, every call before it had returned, and the store is
    left as the calls made left it. *)
Theorem from_config_errors_propagate (config : Config T)
    (an : Arg (option string)) (vc : Arg bool) (w : World T)
    (o : Outcome T (Index T)) (w' : World T) (t : list (Event T)) :
  from_config h config an vc w = (o, w', t) ->
  (forall ev e, In ev t -> raised ev = Some e -> o = Raise e) /\
  (forall e, o = Raise e ->
     exists t1 c, t = t1 ++ [Called c (Raise e)] /\ Forall returned t1) /\
  (Forall returned t -> exists idx, o = Return idx) /\
  w' = replay h (calls t) w.
Proof.
  intros Hrun. pose proof (from_config_faithful config an vc w) as Hf.
  rewrite Hrun in Hf. destruct Hf as [Hend Hw].
  split; [|split; [|split]].
  - intros ev e Hin Hr. eapply ended_raised; eassumption.
  - intros e ->. exact Hend.
  - intros Hret. destruct o as [idx|e]; [exists idx; reflexivity|].
    exfalso. cbn in Hend. destruct Hend as (t1 & c & -> & _).
    apply Forall_app in Hret. destruct Hret as [_ Hret].
    inversion Hret as [|? ? Hc _]. exact Hc.
  - exact Hw.
Qed.

(** ** How a with block on an index ends *)

(** X4.  A with block on an index ends as its close ends whenever close
    raises: the exception of close is the one raised, also when the body
    had raised another one, which is then lost to the caller.  When close
    returns and the body had returned a value, the block ends normally with
    that value. *)
Theorem with_Index_outcome {A : Type} (self : Index T)
    (body : Index T -> M T A) (w : World T)
    (ob : Outcome T A) (wb : World T) (tb : list (Event T))
    (o : Outcome T (option A)) (w' : World T) (t : list (Event T)) :
  body self w = (ob, wb, tb) ->
  with_ (CM := Index_ContextManager h) self body w = (o, w', t) ->
  (forall e', fst (h (PostgresDb_close (_db self)) wb) = Raise e' -> o = Raise e') /\
  (forall u x, fst (h (PostgresDb_close (_db self)) wb) = Return u ->
     ob = Return x -> o = Return (Some x)).
Proof.
  intros Hbody Hwith. rewrite with_Index_run, Hbody in Hwith.
  destruct (h (PostgresDb_close (_db self)) wb) as [[u|e'] w3];
    inversion Hwith; subst; cbn [fst]; split.
  - discriminate.
  - intros _ x _ ->. reflexivity.
  - intros e0 He0. inversion He0; subst. reflexivity.
  - discriminate.
Qed.

(** ** Running init_db again *)

Lemma replay_keeps (P : World T -> Prop) :
  (forall c w, P w -> P (snd (h c w))) ->
  forall cs w, P w -> P (replay h cs w).
Proof.
  intros Hstep. induction cs as [|c cs IH]; intros w Hw; cbn.
  - exact Hw.
  - apply IH. apply Hstep. exact Hw.
Qed.

(** X5.  Take a connection handle whose init operation, once it has
    returned, leaves the schema existing, on which no call removes the
    schema, and whose init reports False on an existing schema.  If the
    schema step of a first init_db returned, then a second init_db returns
    False and makes no call but init: it seeds nothing, whatever its
    with_default_types, also when the first init_db had failed part-way
    through seeding. *)
Theorem init_db_rerun_seeds_nothing (existing : World T -> Prop)
    (self : Index T) (a b a' b' : Arg bool) (w : World T)
    (o1 : Outcome T bool) (w1 : World T) (t1 : list (Event T))
    (o2 : Outcome T bool) (w2 : World T) (t2 : list (Event T)) :
  (forall db p w0 is_new w0',
     h (PostgresDb_init db p) w0 = (Return is_new, w0') -> existing w0') ->
  (forall c w0, existing w0 -> existing (snd (h c w0))) ->
  (forall db p w0, existing w0 -> fst (h (PostgresDb_init db p) w0) = Return false) ->
  init_db h self a b w = (o1, w1, t1) ->
  (exists is_new, fst (h (PostgresDb_init (_db self) (arg_or true b)) w) = Return is_new) ->
  init_db h self a' b' w1 = (o2, w2, t2) ->
  o2 = Return false /\
  t2 = [Called (PostgresDb_init (_db self) (arg_or true b')) (Return false)].
Proof.
  intros Hcreate Hkeep Hold Hrun1 [is_new Hnew] Hrun2.
  assert (Hw1 : existing w1).
  { pose proof (init_db_faithful h self a b w) as Hf. rewrite Hrun1 in Hf.
    destruct Hf as [_ ->].
    assert (Hex : existing (snd (h (PostgresDb_init (_db self) (arg_or true b)) w))).
    { destruct (h (PostgresDb_init (_db self) (arg_or true b)) w) as [o0 w0] eqn:E.
      cbn [fst] in Hnew. subst o0. cbn [snd]. exact (Hcreate _ _ _ _ _ E). }
    destruct (init_db_calls self a b w Hrun1) as [Hc|(rest & Hc & _)];
      rewrite Hc; cbn [replay];
      repeat first [exact Hex | apply Hkeep | apply (replay_keeps existing Hkeep)]. }
  rewrite init_db_run in Hrun2.
  pose proof (Hold (_db self) (arg_or true b') w1 Hw1) as Hfalse.
  destruct (h (PostgresDb_init (_db self) (arg_or true b')) w1) as [o0 w0].
  cbn [fst] in Hfalse. subst o0. cbn [andb] in Hrun2.
  inversion Hrun2; subst. split; reflexivity.
Qed.

End FacadeFurther.

(** ** The printed form of an index *)

Lemma append_bracket_inj (s1 s2 : string) :
  (s1 ++ ">")%string = (s2 ++ ">")%string -> s1 = s2.
Proof.
  revert s2. induction s1 as [|c1 s1 IH]; intros [|c2 s2] H; cbn in H.
  - reflexivity.
  - exfalso. inversion H as [[Hc Hs]]. destruct s2; discriminate Hs.
  - exfalso. inversion H as [[Hc Hs]]. destruct s1; discriminate Hs.
  - inversion H as [[Hc Hs]]. f_equal. apply IH. exact Hs.
Qed.

(** X6.  The printed form of an index tells the printed form of its
    connection handle and nothing else: two indexes print alike exactly
    when their connection handles print alike, whatever their managers. *)
Theorem repr_determined_by_db (T : Collaborators) (repr : PostgresDb T -> string)
    (i1 i2 : Index T) :
  __repr__ repr i1 = __repr__ repr i2 <-> repr (_db i1) = repr (_db i2).
Proof.
  unfold __repr__. split.
  - intros H. cbn in H. inversion H as [H']. apply append_bracket_inj. exact H'.
  - intros ->. reflexivity.
Qed.

(** * The further properties on the reference store *)

Module OnStoreFurther.

Import Store.
Import Faulty.

(** init_db() on a fresh store: one init, one fetch of the defaults. *)
Lemma init_db_call_discipline_witness :
  fst (fst (init_db backend an_index Omitted Omitted fresh)) = Return true /\
  List.length (filter is_init_call
     (calls (snd (init_db backend an_index Omitted Omitted fresh)))) = 1 /\
  List.length (filter is_default_docs_call
     (calls (snd (init_db backend an_index Omitted Omitted fresh)))) <= 1.
Proof.
  split; [reflexivity|].
  pose proof (@init_db_call_discipline types backend an_index Omitted Omitted fresh
                _ _ _ eq_refl) as H.
  split; [exact (proj1 (proj2 H)) | exact (proj1 (proj2 (proj2 H)))].
Defined.

(** Opening an index when the products manager cannot be constructed: the
    connection handle was opened and is not closed. *)
Lemma from_config_call_discipline_witness :
  from_config (failing products_fail) good_config (Given (Some "app")) Omitted fresh
  = (@Raise types _ ConnectivityError,
     snd (fst (from_config (failing products_fail) good_config
                 (Given (Some "app")) Omitted fresh)),
     [Called (@PostgresDb_from_config types good_config (Some "app") true)
             (@Return types postgres_db a_db);
      Called (@UserResource_new types a_db) (@Return types postgres_db a_db);
      Called (@MetadataTypeResource_new types a_db) (@Return types postgres_db a_db);
      Called (@ProductResource_new types a_db a_db)
             (@Raise types _ ConnectivityError)]) /\
  exists rest,
    calls (snd (from_config (failing products_fail) good_config
                  (Given (Some "app")) Omitted fresh))
    = @PostgresDb_from_config types good_config (Some "app") true :: rest /\
    Forall (fun c => is_init_call c = false /\ is_close_call c = false /\
                     is_seeding_call c = false)
           (calls (snd (from_config (failing products_fail) good_config
                          (Given (Some "app")) Omitted fresh))).
Proof.
  split; [reflexivity|].
  destruct (@from_config_call_discipline types (failing products_fail) good_config
              (Given (Some "app")) Omitted fresh _ _ _ eq_refl)
    as (rest & H1 & _ & H3).
  exists rest. split; [exact H1 | exact H3].
Defined.

(** The failure of the constructor is the failure of from_config. *)
Lemma from_config_errors_propagate_witness :
  fst (fst (from_config (failing products_fail) good_config
              (Given (Some "app")) Omitted fresh))
  = @Raise types _ ConnectivityError /\
  (forall ev e,
     In ev (snd (from_config (failing products_fail) good_config
                   (Given (Some "app")) Omitted fresh)) ->
     raised ev = Some e ->
     @Raise types (Index types) ConnectivityError = Raise e).
Proof.
  split; [reflexivity|].
  exact (proj1
    (@from_config_errors_propagate types (failing products_fail) good_config
       (Given (Some "app")) Omitted fresh _ _ _ eq_refl)).
Defined.

(** The body of the block fails while seeding, then close fails: the caller
    gets the failure of close. *)
Lemma with_Index_outcome_witness :
  fst (fst (seed_unreleased an_index (fresh_failing ["eo"])))
  = @Raise types _ (DefaultSeedingError "eo") /\
  fst (fst (with_ (CM := Index_ContextManager (failing close_fails)) an_index
              seed_unreleased (fresh_failing ["eo"])))
  = @Raise types _ ConnectivityError.
Proof.
  split; [reflexivity|].
  exact (proj1
    (@with_Index_outcome types (failing close_fails) bool an_index seed_unreleased
       (fresh_failing ["eo"]) _ _ _ _ _ _ eq_refl eq_refl)
    ConnectivityError eq_refl).
Defined.

(** A first init_db fails at the second default document; a second init_db
    returns False and the registry still holds the first document only. *)
Lemma init_db_rerun_seeds_nothing_witness :
  fst (fst (init_db backend an_index Omitted Omitted (fresh_failing ["telemetry"])))
  = @Raise types _ (DefaultSeedingError "telemetry") /\
  fst (fst (init_db backend an_index Omitted Omitted
              (snd (fst (init_db backend an_index Omitted Omitted
                           (fresh_failing ["telemetry"]))))))
  = Return false /\
  registry (snd (fst (init_db backend an_index Omitted Omitted
              (snd (fst (init_db backend an_index Omitted Omitted
                           (fresh_failing ["telemetry"])))))))
  = ["eo"].
Proof.
  split; [reflexivity|]. split; [|reflexivity].
  refine (proj1
    (@init_db_rerun_seeds_nothing types backend
       (fun w0 : world => schema_exists w0 = true)
       an_index Omitted Omitted Omitted Omitted (fresh_failing ["telemetry"])
       _ _ _ _ _ _ _ _ _ eq_refl (ex_intro _ true eq_refl) eq_refl)).
  - intros db p w0 is_new w0' H. cbn in H.
    destruct (schema_exists w0) eqn:E.
    + inversion H; subst. exact E.
    + destruct (broken_schema w0); inversion H; subst; reflexivity.
  - intros c w0 E. destruct c; cbn;
      repeat match goal with
             | |- context [if ?x then _ else _] => destruct x eqn:?
             end; cbn; congruence.
  - intros db p w0 E. cbn. rewrite E. reflexivity.
Defined.

End OnStoreFurther.
